(** * Hydrographic anomaly-analysis engine: a shallow embedding

    The engine under [apps/api/src] is numpy code over float64 grids.  The
    embedding keeps its structure function by function:

    - [infrastructure/ml_pipeline.py]: [RasterProcessor.compute_statistics],
      [FeatureExtractor], [AnomalyDetector], [AnomalyPolygonizer],
      the array prepared by [HeatmapGenerator.generate] and the
      computation of [MLPipeline.run_analysis];
    - [api/routes/runs.py]: the confidence counts stored on a run;
    - [domain/services/sounding_selection.py]: [SoundingSelector] and the
      cell size chosen by [select_soundings_for_scale];
    - [domain/services/contour_generation.py]: [ContourGenerator].

    Numbers.  A float64 is modelled by [float]: the IEEE special values
    [NaN], [PInf], [NInf], and finite values carried by an exact rational.
    Elementwise finite arithmetic is exact (no rounding, no overflow, one
    zero); the special values follow IEEE-754 (NaN is contagious and
    unordered, [inf - inf], [0 * inf], [0 / 0] are NaN, [x / 0] is an
    infinity).  The reductions [np.sum] and [np.mean] round as float64
    does: every addition and the final division give the nearest double,
    ties to even ([round64]).
    Raised Python exceptions are values of [result]. *)

From Stdlib Require Import String.
From Stdlib Require Import List ZArith QArith Qabs Qround Qpower Lia Lqa Bool.
From Stdlib Require Import Sorting.Sorted.
Import ListNotations.

Set Implicit Arguments.

Local Open Scope Q_scope.

(* ================================================================== *)
(** ** Exceptions *)

Inductive exn : Set := ValueError | IndexError | KeyError | ZeroDivisionError.

Inductive result (A : Type) : Type :=
| Ok (a : A)
| Raise (e : exn).
Arguments Ok {A} a.
Arguments Raise {A} e.

Definition bind {A B} (m : result A) (k : A -> result B) : result B :=
  match m with
  | Ok a => k a
  | Raise e => Raise e
  end.

Notation "x <- m ;; k" := (bind m (fun x => k))
  (at level 61, m at next level, right associativity).

(* ================================================================== *)
(** ** float64 values *)

Module Float.

Inductive float : Type :=
| NaN
| PInf
| NInf
| Fin (q : Q).

Definition zero : float := Fin 0.
Definition one : float := Fin 1.

Definition isnan (x : float) : bool :=
  match x with NaN => true | _ => false end.

Definition isfinite (x : float) : bool :=
  match x with Fin _ => true | _ => false end.

(** Sign of a rational: the Z comparison of its numerator with 0. *)
Definition Qsgn (q : Q) : comparison := (Qnum q ?= 0)%Z.

Definition Qltb (a b : Q) : bool := negb (Qle_bool b a).

Definition neg (x : float) : float :=
  match x with
  | NaN => NaN
  | PInf => NInf
  | NInf => PInf
  | Fin q => Fin (- q)
  end.

Definition abs (x : float) : float :=
  match x with
  | NaN => NaN
  | PInf | NInf => PInf
  | Fin q => Fin (Qabs q)
  end.

Definition add (x y : float) : float :=
  match x, y with
  | NaN, _ | _, NaN => NaN
  | PInf, NInf | NInf, PInf => NaN
  | PInf, _ | _, PInf => PInf
  | NInf, _ | _, NInf => NInf
  | Fin a, Fin b => Fin (a + b)
  end.

Definition sub (x y : float) : float := add x (neg y).

(** An infinity times a finite value: the sign decides, zero gives NaN. *)
Definition inf_times (pos : bool) (q : Q) : float :=
  match Qsgn q with
  | Eq => NaN
  | Gt => if pos then PInf else NInf
  | Lt => if pos then NInf else PInf
  end.

Definition mul (x y : float) : float :=
  match x, y with
  | NaN, _ | _, NaN => NaN
  | PInf, PInf | NInf, NInf => PInf
  | PInf, NInf | NInf, PInf => NInf
  | PInf, Fin q | Fin q, PInf => inf_times true q
  | NInf, Fin q | Fin q, NInf => inf_times false q
  | Fin a, Fin b => Fin (a * b)
  end.

Definition div (x y : float) : float :=
  match x, y with
  | NaN, _ | _, NaN => NaN
  | (PInf | NInf), (PInf | NInf) => NaN
  | PInf, Fin q => match Qsgn q with Lt => NInf | _ => PInf end
  | NInf, Fin q => match Qsgn q with Lt => PInf | _ => NInf end
  | Fin _, (PInf | NInf) => Fin 0
  | Fin a, Fin b =>
      match Qsgn b with
      | Eq => inf_times true a
      | _ => Fin (a / b)
      end
  end.

(** Square root of a non-negative rational, truncated to 53 fractional
    bits: [Z.sqrt (floor (q * 2^106)) / 2^53]. *)
Definition Qsqrt (q : Q) : Q :=
  Z.sqrt (Qfloor (q * inject_Z (2 ^ 106))) # (2 ^ 53).

Definition sqrt (x : float) : float :=
  match x with
  | NaN | NInf => NaN
  | PInf => PInf
  | Fin q => if Qltb q 0 then NaN else Fin (Qsqrt q)
  end.

(** Comparisons: every comparison with NaN is false. *)
Definition leb (x y : float) : bool :=
  match x, y with
  | NaN, _ | _, NaN => false
  | NInf, _ => true
  | _, PInf => true
  | PInf, _ => false
  | _, NInf => false
  | Fin a, Fin b => Qle_bool a b
  end.

Definition ltb (x y : float) : bool :=
  match x, y with
  | NaN, _ | _, NaN => false
  | PInf, _ => false
  | _, NInf => false
  | NInf, _ => true
  | _, PInf => true
  | Fin a, Fin b => Qltb a b
  end.

Definition geb (x y : float) : bool := leb y x.
Definition gtb (x y : float) : bool := ltb y x.

Definition eqb (x y : float) : bool :=
  match x, y with
  | PInf, PInf | NInf, NInf => true
  | Fin a, Fin b => Qeq_bool a b
  | _, _ => false
  end.

(** [np.minimum] and [np.maximum]: NaN if either argument is NaN. *)
Definition minimum (x y : float) : float :=
  match x, y with
  | NaN, _ | _, NaN => NaN
  | _, _ => if leb x y then x else y
  end.

Definition maximum (x y : float) : float :=
  match x, y with
  | NaN, _ | _, NaN => NaN
  | _, _ => if leb x y then y else x
  end.

(** Largest finite float64, [(2 - 2^-52) * 2^1023]. *)
Definition max_float : Q := inject_Z (2 ^ 1024 - 2 ^ 971).

(** [np.nan_to_num(x, nan=n, posinf=p, neginf=m)]; an absent [posinf] or
    [neginf] is the largest or most negative finite float. *)
Definition nan_to_num (nan : Q) (posinf neginf : option Q) (x : float) : float :=
  match x with
  | NaN => Fin nan
  | PInf => Fin (match posinf with Some p => p | None => max_float end)
  | NInf => Fin (match neginf with Some m => m | None => - max_float end)
  | Fin q => Fin q
  end.

(** Nearest integer, ties to the even one. *)
Definition round_half_even (q : Q) : Z :=
  let f := Qfloor q in
  match Qcompare (q - inject_Z f) (1 # 2) with
  | Lt => f
  | Gt => (f + 1)%Z
  | Eq => if Z.even f then f else (f + 1)%Z
  end.

(** For [q > 0], the exponent [e] of the unit in the last place of the
    doubles around [q]: [2^(e+52) <= q < 2^(e+53)]. *)
Definition ulp_exponent (q : Q) : Z :=
  let k := (Z.log2 (Qnum q) - Z.log2 (Zpos (Qden q)))%Z in
  if Qle_bool (2 ^ k) q then (k - 52)%Z else (k - 53)%Z.

(** A positive rational rounded to 53 significant bits. *)
Definition round_pos (q : Q) : Q :=
  let e := ulp_exponent q in
  inject_Z (round_half_even (q / 2 ^ e)) * 2 ^ e.

(** The double nearest to [q], ties to even (the exponent range is not
    bounded: no overflow, no subnormal numbers). *)
Definition round64 (q : Q) : Q :=
  match Qnum q with
  | Z0 => 0
  | Zpos _ => round_pos q
  | Zneg _ => - round_pos (- q)
  end.


(** The float64 result of an operation whose exact result is [x]. *)
Definition round (x : float) : float :=
  match x with
  | Fin q => Fin (round64 q)
  | _ => x
  end.

(** A bool used as a number ([valid_mask.astype(float)], [x * mask]). *)
Definition of_bool (b : bool) : float := if b then Fin 1 else Fin 0.

End Float.

Import Float.

(* ================================================================== *)
(** ** 2-D arrays *)

Module Grid.

Definition grid : Type := list (list float).
Definition mask : Type := list (list bool).

Fixpoint mapi_from {A B : Type} (k : nat) (f : nat -> A -> B) (l : list A) : list B :=
  match l with
  | [] => []
  | v :: t => f k v :: mapi_from (S k) f t
  end.

Definition mapi {A B : Type} (f : nat -> A -> B) (l : list A) : list B :=
  mapi_from 0 f l.

(** Build an array of the shape of [g], cell by cell. *)
Definition gmapi {A B : Type} (f : nat -> nat -> A -> B) (g : list (list A))
  : list (list B) :=
  mapi (fun i row => mapi (fun j v => f i j v) row) g.

Definition gmap {A B : Type} (f : A -> B) (g : list (list A)) : list (list B) :=
  map (map f) g.

(** The cell at [(i, j)], when it exists. *)
Definition cell {A : Type} (g : list (list A)) (i j : nat) : option A :=
  match nth_error g i with
  | Some row => nth_error row j
  | None => None
  end.

Definition nrows {A : Type} (g : list (list A)) : nat := List.length g.

(** [g[r0:r1, c0:c1]] *)
Definition slice2 {A : Type} (g : list (list A)) (r0 r1 c0 c1 : nat) : list (list A) :=
  map (fun row => firstn (c1 - c0) (skipn c0 row)) (firstn (r1 - r0) (skipn r0 g)).


(** [np.zeros(shape)] for the shape of [g]. *)
Definition zeros_like {A : Type} (g : list (list A)) : grid :=
  gmap (fun _ => Fin 0) g.

(** [~np.isnan(data)] *)
Definition valid_mask (data : grid) : mask := gmap (fun v => negb (isnan v)) data.

(** Read with a Z index and a value for positions outside the array
    (the [mode='constant'] boundary). *)
Definition get_const {A : Type} (cval : A) (g : list (list A)) (i j : Z) : A :=
  if ((i <? 0) || (j <? 0))%Z then cval
  else match cell g (Z.to_nat i) (Z.to_nat j) with
       | Some v => v
       | None => cval
       end.

(** The [mode='reflect'] boundary, (d c b a | a b c d | d c b a): the
    index into a line of [n] samples that position [k] reads. *)
Definition reflect (n : nat) (k : Z) : nat :=
  let n' := Z.of_nat n in
  let m := (k mod (2 * n'))%Z in
  Z.to_nat (if (m <? n')%Z then m else (2 * n' - 1 - m)%Z).

(** The six coefficients (a, b, c, d, e, f) of the affine transform. *)
Record Affine : Type := { a : Q; b : Q; c : Q; d : Q; e : Q; f : Q }.

(** [affine * (col, row)]. *)
Definition apply_affine (t : Affine) (col row : Q) : Q * Q :=
  (a t * col + b t * row + c t, d t * col + e t * row + f t).

(** [transform * Affine.translation(xoff, yoff)] *)
Definition translate (t : Affine) (xoff yoff : Q) : Affine :=
  {| a := a t; b := b t; c := a t * xoff + b t * yoff + c t;
     d := d t; e := e t; f := d t * xoff + e t * yoff + f t |}.

End Grid.

(* ================================================================== *)
(** ** Contour generation: [ContourGenerator._chaikin_smooth]

    A contour is the array of (row, col) vertices that [find_contours]
    returns; its coordinates are finite, so a vertex is a pair of
    rationals. *)

Module Contour.

Definition point : Type := (Q * Q)%type.

(** [a * p0 + b * p1] on length-2 arrays. *)
Definition combine (a b : Q) (p0 p1 : point) : point :=
  (a * fst p0 + b * fst p1, a * snd p0 + b * snd p1).

(** [np.isclose] with the default [rtol=1e-05], [atol=1e-08]. *)
Definition isclose (a b : Q) : bool :=
  Qle_bool (Qabs (a - b)) ((1 # 100000000) + (1 # 100000) * Qabs b).

Definition allclose (p q : point) : bool :=
  isclose (fst p) (fst q) && isclose (snd p) (snd q).

(** The inner loop [for i in range(n - 1)]: the two quarter points of
    every edge, in order. *)
Fixpoint quarter_points (l : list point) : list point :=
  match l with
  | p0 :: ((p1 :: _) as tl) =>
      combine (3 # 4) (1 # 4) p0 p1 :: combine (1 # 4) (3 # 4) p0 p1
        :: quarter_points tl
  | _ => []
  end.

(** One pass of the outer loop.  [result[0]] raises IndexError on an
    empty array. *)
Definition chaikin_pass (res : list point) : result (list point) :=
  match res with
  | [] => Raise IndexError
  | first :: _ =>
      let lastp := last res first in
      Ok (quarter_points res ++
          (if negb (allclose first lastp) then [lastp] else []))
  end.

Fixpoint _chaikin_smooth (coords : list point) (iterations : nat)
  : result (list point) :=
  match iterations with
  | O => Ok coords
  | S k => res <- chaikin_pass coords ;; _chaikin_smooth res k
  end.

(** A path is closed when its first and last vertices coincide (what
    shapely's [is_ring] requires of the coordinate sequence). *)
Definition same_point (p q : point) : bool :=
  Qeq_bool (fst p) (fst q) && Qeq_bool (snd p) (snd q).

Definition is_closed (path : list point) : bool :=
  match path with
  | [] => false
  | first :: _ => same_point first (last path first)
  end.

End Contour.

(* ================================================================== *)
(** ** numpy reductions on flat arrays *)

Module Np.

(** [np.add.reduce] on a float64 array: every addition is rounded.  The
    additions run from left to right, starting from 0, which is numpy's
    order for arrays of fewer than 8 elements (it sums longer arrays
    pairwise, in blocks). *)
Definition fsum (l : list float) : float :=
  fold_left (fun acc x => round (add acc x)) l (Fin 0).

Definition flen (l : list float) : float := Fin (inject_Z (Z.of_nat (length l))).

(** [a[~np.isnan(a)]] *)
Definition drop_nan (l : list float) : list float :=
  filter (fun x => negb (isnan x)) l.

(** [np.mean]: the rounded sum divided by the count, rounded; on an
    empty array the quotient is [0 / 0]. *)
Definition mean (l : list float) : float := round (div (fsum l) (flen l)).

Definition nanmean (l : list float) : float := mean (drop_nan l).

(** [np.std]: square root of the mean squared deviation. *)
Definition std (l : list float) : float :=
  let m := mean l in
  sqrt (mean (map (fun x => let d := sub x m in mul d d) l)).

Definition nanstd (l : list float) : float := std (drop_nan l).

(** Minimum and maximum of a non-empty array without NaN. *)
Definition min_list (x : float) (l : list float) : float :=
  fold_left (fun m y => if ltb y m then y else m) l x.

Definition max_list (x : float) (l : list float) : float :=
  fold_left (fun m y => if ltb m y then y else m) l x.

(** [a.min()] / [a.max()]: ValueError on a zero-size array. *)
Definition amin (l : list float) : result float :=
  match l with
  | [] => Raise ValueError
  | x :: t => Ok (if existsb isnan l then NaN else min_list x t)
  end.

Definition amax (l : list float) : result float :=
  match l with
  | [] => Raise ValueError
  | x :: t => Ok (if existsb isnan l then NaN else max_list x t)
  end.

(** [np.nanmin] / [np.nanmax]: ValueError on a zero-size array, NaN (with
    a warning) when every element is NaN. *)
Definition nanmin (l : list float) : result float :=
  match l with
  | [] => Raise ValueError
  | _ => match drop_nan l with
         | [] => Ok NaN
         | x :: t => Ok (min_list x t)
         end
  end.

Definition nanmax (l : list float) : result float :=
  match l with
  | [] => Raise ValueError
  | _ => match drop_nan l with
         | [] => Ok NaN
         | x :: t => Ok (max_list x t)
         end
  end.

(** Index of the first smallest element, scanning left to right;
    [i] is the index of the head of [l]. *)
Fixpoint argmin_from (i best_i : nat) (best : float) (l : list float) : nat :=
  match l with
  | [] => best_i
  | x :: t =>
      if ltb x best then argmin_from (S i) i x t
      else argmin_from (S i) best_i best t
  end.

Fixpoint argmax_from (i best_i : nat) (best : float) (l : list float) : nat :=
  match l with
  | [] => best_i
  | x :: t =>
      if ltb best x then argmax_from (S i) i x t
      else argmax_from (S i) best_i best t
  end.

(** [np.nanargmin]: NaN entries are replaced by [+inf] before the scan;
    ValueError when the array is empty or all NaN. *)
Definition nanargmin (l : list float) : result nat :=
  if forallb isnan l then Raise ValueError
  else match map (fun x => if isnan x then PInf else x) l with
       | [] => Raise ValueError
       | x :: t => Ok (argmin_from 1 0 x t)
       end.

(** [np.nanargmax]: NaN entries are replaced by [-inf]. *)
Definition nanargmax (l : list float) : result nat :=
  if forallb isnan l then Raise ValueError
  else match map (fun x => if isnan x then NInf else x) l with
       | [] => Raise ValueError
       | x :: t => Ok (argmax_from 1 0 x t)
       end.

(** Sorting, for medians: insertion sort by [leb]. *)
Fixpoint insert (x : float) (l : list float) : list float :=
  match l with
  | [] => [x]
  | y :: t => if leb x y then x :: l else y :: insert x t
  end.

Definition sort (l : list float) : list float := fold_right insert [] l.

(** [np.median] of an array without NaN: the middle element, or the mean
    of the two middle elements; NaN on an empty array. *)
Definition median (l : list float) : float :=
  let s := sort l in
  let n := length s in
  match n with
  | O => NaN
  | _ =>
      if Nat.even n
      then div (add (nth (n / 2 - 1) s NaN) (nth (n / 2) s NaN)) (Fin 2)
      else nth (n / 2) s NaN
  end.

Definition nanmedian (l : list float) : float := median (drop_nan l).

End Np.

(* ================================================================== *)
(** ** Sounding selection: [SoundingSelector.select_from_grid] *)

Module Sounding.

Import Grid.

Inductive selection_mode : Set := Shoal | Deep | Representative.

Record SoundingPoint : Type := {
  x : Q;
  y : Q;
  depth : float;
  selection_type : selection_mode;
  cell_id : nat * nat
}.

(** [max(1, int(cell_size / pixel_size))]: float division raises on a
    zero divisor, [int] truncates toward zero. *)
Definition cell_pixels (cell_size pixel_size : Q) : result nat :=
  if Qeq_bool pixel_size 0 then Raise ZeroDivisionError
  else
    let r := cell_size / pixel_size in
    Ok (Z.to_nat (Z.max 1 (Z.quot (Qnum r) (Zpos (Qden r))))).

(** [range(0, stop, step)] for [step >= 1]. *)
Definition range_step (stop step : nat) : list nat :=
  map (fun k => (k * step)%nat) (seq 0 ((stop + step - 1) / step)).

(** The valid mask of a cell, flattened in row-major order. *)
Definition is_valid (nodata_value : option float) (v : float) : bool :=
  match nodata_value with
  | Some nd => negb (eqb v nd)
  | None => negb (isnan v)
  end.

Definition valid_depths (nodata_value : option float) (cell : grid) : list float :=
  filter (is_valid nodata_value) (concat cell).

(** The branch on [self.mode]. *)
Definition select_depth (mode : selection_mode) (vd : list float) : result float :=
  match mode with
  | Shoal =>
      idx <- Np.nanargmin (map abs vd) ;;
      Ok (nth idx vd NaN)
  | Deep =>
      idx <- Np.nanargmax (map abs vd) ;;
      Ok (nth idx vd NaN)
  | Representative => Ok (Np.nanmedian vd)
  end.

(** The body of the two nested loops for the cell that starts at
    [(row_start, col_start)]; [None] is the [continue] of an empty cell. *)
Definition select_cell (mode : selection_mode) (depth_grid : grid)
    (affine : Affine) (nodata_value : option float)
    (cpx cpy : nat) (row_start col_start : nat) : result (option SoundingPoint) :=
  let rows := length depth_grid in
  let cols := length (hd [] depth_grid) in
  let row_end := Nat.min (row_start + cpy) rows in
  let col_end := Nat.min (col_start + cpx) cols in
  let cell := slice2 depth_grid row_start row_end col_start col_end in
  let vd := valid_depths nodata_value cell in
  match vd with
  | [] => Ok None
  | _ =>
      selected_depth <- select_depth mode vd ;;
      flat_idx <- Np.nanargmin
                    (map (fun v => abs (sub v selected_depth)) (concat cell)) ;;
      let width := length (hd [] cell) in
      let local_row := (flat_idx / width)%nat in
      let local_col := (flat_idx mod width)%nat in
      let pixel_row := (row_start + local_row)%nat in
      let pixel_col := (col_start + local_col)%nat in
      let xy := apply_affine affine
                  (inject_Z (Z.of_nat pixel_col) + (1 # 2))
                  (inject_Z (Z.of_nat pixel_row) + (1 # 2)) in
      Ok (Some {| x := fst xy; y := snd xy;
                  depth := selected_depth;
                  selection_type := mode;
                  cell_id := ((row_start / cpy)%nat, (col_start / cpx)%nat) |})
  end.

(** Run a loop body over a list, keeping the appended items in order and
    stopping at the first exception. *)
Fixpoint collect {A B : Type} (body : A -> result (option B)) (l : list A)
  : result (list B) :=
  match l with
  | [] => Ok []
  | i :: t =>
      r <- body i ;;
      rest <- collect body t ;;
      Ok (match r with Some v => v :: rest | None => rest end)
  end.

Definition cell_starts (rows cols cpx cpy : nat) : list (nat * nat) :=
  flat_map (fun row_start => map (pair row_start) (range_step cols cpx))
           (range_step rows cpy).

Definition select_from_grid (cell_size : Q) (mode : selection_mode)
    (depth_grid : grid) (affine : Affine) (nodata_value : option float)
  : result (list SoundingPoint) :=
  cpx <- cell_pixels cell_size (Qabs (a affine)) ;;
  cpy <- cell_pixels cell_size (Qabs (e affine)) ;;
  let rows := length depth_grid in
  let cols := length (hd [] depth_grid) in
  collect (fun rc => select_cell mode depth_grid affine nodata_value
                       cpx cpy (fst rc) (snd rc))
          (cell_starts rows cols cpx cpy).

End Sounding.

(* ================================================================== *)
(** ** The cell size for a chart scale: [select_soundings_for_scale] *)

Module Scale.

(** [scale_to_cell], in insertion order. *)
Definition scale_to_cell : list (Z * Z) :=
  [ (10000, 50); (25000, 100); (50000, 200); (100000, 400); (200000, 800) ]%Z.

(** [min(keys, key=lambda k: abs(k - target_scale))]: the first key among
    those at the least distance. *)
Definition closest_scale (target_scale : Z) : Z :=
  match map fst scale_to_cell with
  | [] => 0%Z
  | k0 :: ks =>
      fold_left (fun best k =>
                   if (Z.abs (k - target_scale) <? Z.abs (best - target_scale))%Z
                   then k else best)
                ks k0
  end.

Fixpoint lookup_scale (k : Z) (d : list (Z * Z)) : result Z :=
  match d with
  | [] => Raise KeyError
  | (k', v) :: t => if (k =? k')%Z then Ok v else lookup_scale k t
  end.

(** [scale_to_cell[closest_scale]]: the cell size that
    [select_soundings_for_scale] hands to the selector and reports as
    [applied_cell_size]. *)
Definition applied_cell_size (target_scale : Z) : result Z :=
  lookup_scale (closest_scale target_scale) scale_to_cell.

End Scale.

(* ================================================================== *)
(** ** scipy.ndimage filters *)

Module Ndimage.

Import Grid.

(** Weighted sum [sum_k w[k] * read (center + k - size/2)] of a
    1-D correlation centred on [center]. *)
Fixpoint wsum_from (w : list Q) (read : Z -> float) (pos : Z) (acc : float) : float :=
  match w with
  | [] => acc
  | wk :: t => wsum_from t read (pos + 1)%Z (add acc (mul (Fin wk) (read pos)))
  end.

Definition wsum (w : list Q) (read : Z -> float) (center : Z) : float :=
  wsum_from w read (center - Z.of_nat (List.length w / 2))%Z (Fin 0).

(** [correlate1d(input, weights, axis=1, mode='reflect')] *)
Definition correlate1d_axis1 (w : list Q) (g : grid) : grid :=
  map (fun row =>
         mapi (fun j _ =>
                 wsum w (fun k => nth (reflect (List.length row) k) row NaN)
                      (Z.of_nat j)) row) g.

(** [correlate1d(input, weights, axis=0, mode='reflect')] *)
Definition correlate1d_axis0 (w : list Q) (g : grid) : grid :=
  gmapi (fun i j _ =>
           wsum w (fun k => nth j (nth (reflect (nrows g) k) g []) NaN)
                (Z.of_nat i)) g.

(** [ndimage.sobel(input, axis)]: the derivative [-1, 0, 1] along the
    axis, then the smoothing [1, 2, 1] along the other axis. *)
Definition sobel_axis1 (g : grid) : grid :=
  correlate1d_axis0 [1; 2; 1] (correlate1d_axis1 [-(1); 0; 1] g).

Definition sobel_axis0 (g : grid) : grid :=
  correlate1d_axis1 [1; 2; 1] (correlate1d_axis0 [-(1); 0; 1] g).

(** [ndimage.laplace(input)]: the second difference [1, -2, 1] along each
    axis, summed. *)
Definition laplace (g : grid) : grid :=
  let d0 := correlate1d_axis0 [1; -(2); 1] g in
  let d1 := correlate1d_axis1 [1; -(2); 1] g in
  gmapi (fun i j v => add v (get_const NaN d1 (Z.of_nat i) (Z.of_nat j))) d0.

(** [ndimage.convolve(input, np.ones((w, w)) / w**2, mode='constant')]:
    the window of a [w]-wide kernel covers the offsets
    [-(w-1)/2 .. w-1-(w-1)/2] on each axis; cells outside the array
    read as 0. *)
Definition window_offsets (w : nat) : list Z :=
  map (fun k => (Z.of_nat k - Z.of_nat ((w - 1) / 2))%Z) (seq 0 w).

Definition convolve_box (w : positive) (g : grid) : grid :=
  let n := Pos.to_nat w in
  let weight := Fin (1 / inject_Z (Zpos (w * w))) in
  gmapi (fun i j _ =>
           fold_left
             (fun acc di =>
                fold_left
                  (fun acc' dj =>
                     add acc' (mul weight
                                 (get_const (Fin 0) g (Z.of_nat i + di) (Z.of_nat j + dj))))
                  (window_offsets n) acc)
             (window_offsets n) (Fin 0)) g.

End Ndimage.

(* ================================================================== *)
(** ** Configuration: [ProcessingConfig]

    The YAML tree is read through [config.get] with a key path and a default; a
    field below is the value found under its key path, [None] when the
    path is absent, and the default is applied where the code applies it. *)

Module Config.

(** A flat dict with string keys; the first binding of a key wins. *)
Definition dict (V : Type) : Type := list (string * V).

Fixpoint lookup {V : Type} (k : string) (d : dict V) : option V :=
  match d with
  | [] => None
  | (k', v) :: t => if String.eqb k k' then Some v else lookup k t
  end.

(** [d.get(k, default)] *)
Definition dict_get {V : Type} (d : dict V) (k : string) (default : V) : V :=
  match lookup k d with
  | Some v => v
  | None => default
  end.

Definition or_default {V : Type} (o : option V) (default : V) : V :=
  match o with
  | Some v => v
  | None => default
  end.

(** [anomaly_detection.isolation_forest.*] *)
Record IsolationForestConfig : Type := {
  n_estimators : option nat;
  contamination : option Q;
  max_samples : option nat;
  random_state : option Z;
  n_jobs : option Z
}.

(** [anomaly_detection.zscore.*] *)
Record ZscoreConfig : Type := {
  threshold : option Q;
  use_mad : option bool;
  mad_threshold : option Q
}.

Record ProcessingConfig : Type := {
  neighborhood_window_size : option positive;
  roughness_window_size : option positive;
  isolation_forest_enabled : option bool;
  isolation_forest_config : IsolationForestConfig;
  zscore_enabled : option bool;
  zscore_config : ZscoreConfig;
  scoring_weights : option (dict Q);
  scoring_priority : option (dict Q);
  scoring_confidence_thresholds : option (dict Q);
  polygons_anomaly_threshold : option Q;
  polygons_min_area_pixels : option Z;
  polygons_simplify_tolerance : option Q
}.

(** The property [confidence_thresholds]. *)
Definition confidence_thresholds (cfg : ProcessingConfig) : dict Q :=
  or_default (scoring_confidence_thresholds cfg)
             [("high"%string, 8 # 10); ("medium"%string, 5 # 10)].

(** The property [anomaly_threshold]. *)
Definition anomaly_threshold (cfg : ProcessingConfig) : Q :=
  or_default (polygons_anomaly_threshold cfg) (6 # 10).

(** A configuration file with no keys: every lookup takes its default. *)
Definition empty : ProcessingConfig := {|
  neighborhood_window_size := None;
  roughness_window_size := None;
  isolation_forest_enabled := None;
  isolation_forest_config :=
    {| n_estimators := None; contamination := None; max_samples := None;
       random_state := None; n_jobs := None |};
  zscore_enabled := None;
  zscore_config := {| threshold := None; use_mad := None; mad_threshold := None |};
  scoring_weights := None;
  scoring_priority := None;
  scoring_confidence_thresholds := None;
  polygons_anomaly_threshold := None;
  polygons_min_area_pixels := None;
  polygons_simplify_tolerance := None
|}.

End Config.

(* ================================================================== *)
(** ** [RasterProcessor.compute_statistics] *)

Module RasterProcessor.

Import Grid.

Record Statistics : Type := {
  z_min : option float;
  z_max : option float;
  z_mean : option float;
  z_std : option float;
  z_median : option float;
  valid_count : nat;
  nodata_count : nat;
  total_count : nat
}.

Definition compute_statistics (data : grid) : result Statistics :=
  let flat := concat data in
  let valid_data := Np.drop_nan flat in
  let nodata := List.length (filter isnan flat) in
  match valid_data with
  | [] =>
      Ok {| z_min := None; z_max := None; z_mean := None; z_std := None;
            z_median := None; valid_count := 0;
            nodata_count := nodata; total_count := List.length flat |}
  | _ =>
      mn <- Np.nanmin flat ;;
      mx <- Np.nanmax flat ;;
      Ok {| z_min := Some mn; z_max := Some mx;
            z_mean := Some (Np.nanmean flat);
            z_std := Some (Np.nanstd flat);
            z_median := Some (Np.nanmedian flat);
            valid_count := List.length valid_data;
            nodata_count := nodata; total_count := List.length flat |}
  end.

End RasterProcessor.

(* ================================================================== *)
(** ** [FeatureExtractor] *)

Module FeatureExtractor.

Import Grid Ndimage Config.

(** [data_filled * valid_mask] with [data_filled = nan_to_num(data, nan=0)],
    optionally squared first. *)
Definition filled_masked (square : bool) (data : grid) : grid :=
  gmap (fun v =>
          let filled := nan_to_num 0 None None v in
          mul (if square then mul filled filled else filled)
              (of_bool (negb (isnan v)))) data.

(** [np.maximum(ndimage.convolve(valid_mask.astype(float), kernel), 1e-10)] *)
Definition local_count (w : positive) (data : grid) : grid :=
  gmap (fun v => maximum v (Fin (1 # 10000000000)))
       (convolve_box w (gmap (fun v => of_bool (negb (isnan v))) data)).

(** [local_sum / local_count] *)
Definition local_mean (w : positive) (data : grid) : grid :=
  let local_sum := convolve_box w (filled_masked false data) in
  let cnt := local_count w data in
  gmapi (fun i j s => div s (get_const NaN cnt (Z.of_nat i) (Z.of_nat j))) local_sum.

(** [(local_sq_sum / local_count) - local_mean ** 2] *)
Definition local_var (w : positive) (data : grid) : grid :=
  let local_sq_sum := convolve_box w (filled_masked true data) in
  let cnt := local_count w data in
  let mean := local_mean w data in
  gmapi (fun i j s =>
           let m := get_const NaN mean (Z.of_nat i) (Z.of_nat j) in
           sub (div s (get_const NaN cnt (Z.of_nat i) (Z.of_nat j))) (mul m m))
        local_sq_sum.

(** [np.sqrt(np.maximum(local_var, 0))] *)
Definition local_std (w : positive) (data : grid) : grid :=
  gmap (fun v => sqrt (maximum v (Fin 0))) (local_var w data).

(** [out[np.isnan(data)] = np.nan] *)
Definition set_nan_where_invalid (data out : grid) : grid :=
  gmapi (fun i j v =>
           if isnan (get_const NaN data (Z.of_nat i) (Z.of_nat j)) then NaN else v)
        out.

Section WithConfig.

Variable config : ProcessingConfig.

Definition _compute_local_zscore (data : grid) : grid :=
  let window_size := or_default (neighborhood_window_size config) 5%positive in
  let mean := local_mean window_size data in
  let std := gmap (fun v => maximum v (Fin (1 # 10000000000)))
                  (local_std window_size data) in
  let z_score :=
    gmapi (fun i j v =>
             div (sub v (get_const NaN mean (Z.of_nat i) (Z.of_nat j)))
                 (get_const NaN std (Z.of_nat i) (Z.of_nat j))) data in
  set_nan_where_invalid data z_score.

Definition _compute_slope (data : grid) : grid :=
  let dx := sobel_axis1 data in
  let dy := sobel_axis0 data in
  let slope :=
    gmapi (fun i j vx =>
             let vy := get_const NaN dy (Z.of_nat i) (Z.of_nat j) in
             sqrt (add (mul vx vx) (mul vy vy))) dx in
  set_nan_where_invalid data slope.

Definition _compute_curvature (data : grid) : grid :=
  let d2x := sobel_axis1 (sobel_axis1 data) in
  let d2y := sobel_axis0 (sobel_axis0 data) in
  let curvature :=
    gmapi (fun i j vx =>
             let vy := get_const NaN d2y (Z.of_nat i) (Z.of_nat j) in
             div (add (abs vx) (abs vy)) (Fin 2)) d2x in
  set_nan_where_invalid data curvature.

Definition _compute_roughness (data : grid) : grid :=
  let window_size := or_default (roughness_window_size config) 3%positive in
  set_nan_where_invalid data (local_std window_size data).

Definition _compute_laplacian (data : grid) : grid :=
  let laplacian := laplace (gmap (nan_to_num 0 None None) data) in
  set_nan_where_invalid data laplacian.

Definition _compute_neighbor_stats (data : grid) : grid * grid :=
  let window_size := or_default (neighborhood_window_size config) 5%positive in
  (set_nan_where_invalid data (local_mean window_size data),
   set_nan_where_invalid data (local_std window_size data)).

(** The returned dict, in insertion order. *)
Definition extract_features (data : grid) : dict grid :=
  let ns := _compute_neighbor_stats data in
  [ ("z_score"%string, _compute_local_zscore data);
    ("slope"%string, _compute_slope data);
    ("curvature"%string, _compute_curvature data);
    ("roughness"%string, _compute_roughness data);
    ("laplacian"%string, _compute_laplacian data);
    ("neighbor_mean"%string, fst ns);
    ("neighbor_std"%string, snd ns) ].

End WithConfig.

End FeatureExtractor.

(* ================================================================== *)
(** ** [AnomalyDetector] *)

Module AnomalyDetector.

Import Grid Config.

(** The hyper-parameters handed to [sklearn.ensemble.IsolationForest]. *)
Record ForestParams : Type := {
  p_n_estimators : nat;
  p_contamination : Q;
  p_max_samples : option nat;   (* [None] is "auto" *)
  p_random_state : Z;
  p_n_jobs : Z
}.

(** [model.fit(X).decision_function(X)] of scikit-learn, an external
    library: for fixed hyper-parameters (the random state among them) a
    function of the sample matrix, giving one finite score per sample. *)
Definition IsolationForest : Type := ForestParams -> list (list float) -> list Q.

Record DetectionResult : Type := {
  anomaly_mask : mask;
  score_grid : grid;
  detector_results : dict grid
}.

(** [feature[valid_mask]]: the cells of [feature] at the valid cells of
    [data], in row-major order. *)
Definition select_valid (data feature : grid) : list float :=
  map snd (filter (fun dv => negb (isnan (fst dv)))
                  (combine (concat data) (concat feature))).

(** [np.column_stack]: one row per sample, one column per feature. *)
Definition column_stack (columns : list (list float)) : list (list float) :=
  match columns with
  | [] => []
  | c0 :: _ =>
      map (fun k => map (fun col => nth k col NaN) columns) (seq 0 (List.length c0))
  end.

(** [result[valid_mask] = scores] on [result = np.zeros(shape)]. *)
Fixpoint scatter_row (m : list bool) (scores : list float) : list float * list float :=
  match m with
  | [] => ([], scores)
  | false :: t =>
      let (r, rest) := scatter_row t scores in (Fin 0 :: r, rest)
  | true :: t =>
      match scores with
      | s :: ss => let (r, rest) := scatter_row t ss in (s :: r, rest)
      | [] => let (r, rest) := scatter_row t [] in (Fin 0 :: r, rest)
      end
  end.

Fixpoint scatter (m : mask) (scores : list float) : grid :=
  match m with
  | [] => []
  | row :: t =>
      let (r, rest) := scatter_row row scores in r :: scatter t rest
  end.

Section WithConfig.

Variable config : ProcessingConfig.
Variable model : IsolationForest.

Definition forest_params : ForestParams :=
  let c := isolation_forest_config config in
  {| p_n_estimators := or_default (n_estimators c) 100%nat;
     p_contamination := or_default (contamination c) (1 # 10);
     p_max_samples := max_samples c;
     p_random_state := or_default (random_state c) 42%Z;
     p_n_jobs := or_default (n_jobs c) (-1)%Z |}.

(** [IsolationForest(...).fit(X)] rejects a matrix without samples with a
    ValueError (scikit-learn's input validation). *)
Definition fit_decision_function (X : list (list float)) : result (list float) :=
  match X with
  | [] => Raise ValueError
  | _ => Ok (map Fin (model forest_params X))
  end.

Definition _run_isolation_forest (data : grid) (features : dict grid) : result grid :=
  let feature_names :=
    ["z_score"; "slope"; "curvature"; "roughness"; "laplacian"]%string in
  let feature_list :=
    flat_map (fun name =>
                match lookup name features with
                | Some feature => [select_valid data feature]
                | None => []
                end) feature_names in
  match feature_list with
  | [] => Ok (zeros_like data)
  | _ =>
      let X := column_stack feature_list in
      let X := map (map (nan_to_num 0 (Some 0) (Some 0))) X in
      raw <- fit_decision_function X ;;
      let scores := map neg raw in
      lo <- Np.amin scores ;;
      hi <- Np.amax scores ;;
      let scores :=
        map (fun s => div (sub s lo)
                          (add (sub hi lo) (Fin (1 # 10000000000)))) scores in
      Ok (scatter (valid_mask data) scores)
  end.

Definition _run_zscore_detector (z_score : grid) : grid :=
  let c := zscore_config config in
  let scores :=
    if or_default (use_mad c) true then
      let valid := Np.drop_nan (concat z_score) in
      match valid with
      | [] => None
      | _ =>
          let median := Np.median valid in
          let mad := Np.median (map (fun v => abs (sub v median)) valid) in
          let threshold := Fin (or_default (mad_threshold c) (35 # 10)) in
          let scores :=
            if ltb mad (Fin (1 # 10000000000))
            then gmap (fun z => abs (sub z median)) z_score
            else gmap (fun z => div (abs (sub z median)) mad) z_score in
          Some (gmap (fun s => minimum (div s threshold) (Fin 1)) scores)
      end
    else
      let threshold := Fin (or_default (threshold c) 3) in
      Some (gmap (fun z => minimum (div (abs z) threshold) (Fin 1)) z_score) in
  match scores with
  | None => zeros_like z_score
  | Some scores => gmap (nan_to_num 0 None None) scores
  end.

Definition default_weights : dict Q :=
  [ ("isolation_forest"%string, 5 # 10);
    ("zscore"%string, 3 # 10);
    ("spatial_consistency"%string, 2 # 10) ].

(** One turn of the loop over [detector_results.items()]:
    [combined += weight * score; total_weight += weight]. *)
Definition accumulate (weights : dict Q) (acc : grid * Q) (item : string * grid)
  : grid * Q :=
  let weight := dict_get weights (fst item) (1 # 10) in
  (gmapi (fun i j v =>
            add v (mul (Fin weight)
                       (get_const NaN (snd item) (Z.of_nat i) (Z.of_nat j))))
         (fst acc),
   snd acc + weight).

(** [shape] is given by an array of that shape. *)
Definition _combine_scores (detector_results : dict grid) (shape : grid) : grid :=
  let weights := or_default (scoring_weights config) default_weights in
  let acc := fold_left (accumulate weights) detector_results (zeros_like shape, 0) in
  let combined := fst acc in
  let total_weight := snd acc in
  if Qltb 0 total_weight
  then gmap (fun v => div v (Fin total_weight)) combined
  else combined.

Definition detect (data : grid) (features : dict grid) : result DetectionResult :=
  r1 <- (if or_default (isolation_forest_enabled config) true
         then s <- _run_isolation_forest data features ;;
              Ok [("isolation_forest"%string, s)]
         else Ok []) ;;
  r2 <- (if or_default (zscore_enabled config) true
         then match lookup "z_score"%string features with
              | Some z => Ok [("zscore"%string, _run_zscore_detector z)]
              | None => Raise KeyError
              end
         else Ok []) ;;
  let detector_results := (r1 ++ r2)%list in
  let final_score := _combine_scores detector_results data in
  let threshold := Fin (anomaly_threshold config) in
  let anomaly_mask :=
    gmapi (fun i j s =>
             if isnan (get_const NaN data (Z.of_nat i) (Z.of_nat j))
             then false else gtb s threshold) final_score in
  Ok {| anomaly_mask := anomaly_mask;
        score_grid := final_score;
        detector_results := detector_results |}.

End WithConfig.

End AnomalyDetector.

(* ================================================================== *)
(** ** Domain entities ([domain/entities.py]) *)

Module Entities.

Inductive ConfidenceLevel : Set := LOW | MEDIUM | HIGH.

Inductive ReviewDecision : Set := PENDING | ACCEPTED | REJECTED.

Inductive AnomalyType : Set :=
| SPIKE | HOLE | SEAM | NOISE_BAND | DISCONTINUITY | DENSITY_GAP | UNKNOWN.

(** The explanation dict built by the polygonizer. *)
Record Explanation : Type := {
  primary_reason : string;
  features : Config.dict float;
  thresholds : Config.dict Q;
  detector_flags : list string;
  pixel_count : nat
}.

(** [Anomaly], over the geometry type of the vector backend. *)
Record Anomaly (geometry_t : Type) : Type := {
  id : N;
  run_id : N;
  centroid_x : float;
  centroid_y : float;
  geometry : geometry_t;
  area_sq_meters : float;
  anomaly_type : AnomalyType;
  anomaly_probability : float;
  confidence_level : ConfidenceLevel;
  qc_priority : float;
  explanation : Explanation;
  local_depth_mean : option float;
  local_depth_std : option float;
  neighbor_count : nat;
  review_decision : ReviewDecision;
  created_at : N
}.

End Entities.

(* ================================================================== *)
(** ** Binary morphology and labelling ([scipy.ndimage]) *)

Module Morphology.

Import Grid.

Definition offsets3 : list Z := [-1; 0; 1]%Z.

(** [binary_erosion] with the 3x3 structuring element of ones and
    [border_value=0]: a cell survives when its whole 3x3 neighbourhood
    is set. *)
Definition binary_erosion (m : mask) : mask :=
  gmapi (fun i j _ =>
           forallb (fun di =>
                      forallb (fun dj =>
                                 get_const false m (Z.of_nat i + di) (Z.of_nat j + dj))
                              offsets3) offsets3) m.

(** [binary_dilation]: a cell is set when some cell of its 3x3
    neighbourhood is. *)
Definition binary_dilation (m : mask) : mask :=
  gmapi (fun i j _ =>
           existsb (fun di =>
                      existsb (fun dj =>
                                 get_const false m (Z.of_nat i + di) (Z.of_nat j + dj))
                              offsets3) offsets3) m.

(** [ndimage.binary_opening(mask, structure=np.ones((3,3)))] *)
Definition binary_opening (m : mask) : mask := binary_dilation (binary_erosion m).

Definition labels : Type := list (list nat).

Definition set_cell {A : Type} (g : list (list A)) (i j : nat) (v : A) : list (list A) :=
  mapi (fun i' row =>
          if Nat.eqb i' i
          then mapi (fun j' x => if Nat.eqb j' j then v else x) row
          else row) g.

(** A set, not yet labelled cell. *)
Definition unlabelled (m : mask) (lab : labels) (i j : Z) : bool :=
  get_const false m i j && Nat.eqb (get_const 1%nat lab i j) 0.

(** Flood fill of one component over the 4-neighbourhood (the default
    structuring element of [ndimage.label]), driven by a work list. *)
Fixpoint flood (fuel : nat) (m : mask) (id : nat) (work : list (Z * Z)) (lab : labels)
  : labels :=
  match fuel with
  | O => lab
  | S fuel' =>
      match work with
      | [] => lab
      | (i, j) :: rest =>
          if unlabelled m lab i j
          then flood fuel' m id
                     ((i - 1, j) :: (i + 1, j) :: (i, j - 1) :: (i, j + 1) :: rest)%Z
                     (set_cell lab (Z.to_nat i) (Z.to_nat j) id)
          else flood fuel' m id rest lab
      end
  end.

(** The index pairs of an array in row-major order. *)
Definition positions {A : Type} (g : list (list A)) : list (nat * nat) :=
  concat (gmapi (fun i j _ => (i, j)) g).

Definition count_cells {A : Type} (g : list (list A)) : nat :=
  List.length (concat g).

(** [ndimage.label(mask)]: components are numbered from 1 in the order
    in which a row-major scan meets their first cell. *)
Definition label_step (m : mask) (st : labels * nat) (ij : nat * nat) : labels * nat :=
  let (lab, n) := st in
  let i := Z.of_nat (fst ij) in
  let j := Z.of_nat (snd ij) in
  if unlabelled m lab i j
  then (flood (4 * count_cells m + 1) m (S n) [(i, j)] lab, S n)
  else st.

Definition label (m : mask) : labels * nat :=
  fold_left (label_step m) (positions m) (gmap (fun _ => 0%nat) m, 0%nat).

(** Grow a box [(r0, r1, c0, c1)] to hold the cell [ij]. *)
Definition extend_box (bb : nat * nat * nat * nat) (ij : nat * nat)
  : nat * nat * nat * nat :=
  match bb with
  | (r0, r1, c0, c1) =>
      (Nat.min r0 (fst ij), Nat.max r1 (S (fst ij)),
       Nat.min c0 (snd ij), Nat.max c1 (S (snd ij)))
  end.

Definition has_label (lab : labels) (id : nat) (ij : nat * nat) : bool :=
  Nat.eqb (get_const 0%nat lab (Z.of_nat (fst ij)) (Z.of_nat (snd ij))) id.

(** The bounding box [(r0, r1, c0, c1)] of the cells that carry [id]:
    the pair of slices [r0:r1, c0:c1]. *)
Definition bounding_box (lab : labels) (id : nat) : option (nat * nat * nat * nat) :=
  match filter (has_label lab id) (positions lab) with
  | [] => None
  | (i0, j0) :: t => Some (fold_left extend_box t (i0, S i0, j0, S j0))
  end.

(** [ndimage.find_objects(labeled)]: one entry per label [1..n]. *)
Definition find_objects (lab : labels) (num_features : nat)
  : list (option (nat * nat * nat * nat)) :=
  map (fun id => bounding_box lab id) (seq 1 num_features).

End Morphology.

(* ================================================================== *)
(** ** [AnomalyPolygonizer] *)

Module Polygonizer.

Import Grid Config Entities Morphology.

(** The vector libraries behind [polygonize] (rasterio, shapely, pyproj),
    as an interface: they decide the geometry and centroid of an anomaly
    and nothing else. *)
Record VectorBackend : Type := {
  geometry_t : Type;
  transformer_t : Type;
  (** the first shape of value 1 yielded by [rasterio.features.shapes] *)
  shapes : mask -> Affine -> option geometry_t;
  (** [pyproj.Transformer.from_crs(crs, "EPSG:4326")], [None] when it raises *)
  transformer_from_crs : string -> option transformer_t;
  (** [shapely.ops.transform], [None] when it raises *)
  shapely_transform : transformer_t -> geometry_t -> option geometry_t;
  simplify : geometry_t -> Q -> geometry_t;
  centroid : geometry_t -> float * float
}.

(** The sources of fresh values: the k-th call of [uuid4()] and of
    [datetime.utcnow()]. *)
Record Entropy : Type := {
  uuid4 : nat -> N;
  utcnow : nat -> N
}.

(** The counters of calls made so far. *)
Record World : Type := { uuid_calls : nat; clock_calls : nat }.

Record Metadata : Type := {
  md_transform : option Affine;
  md_resolution : option (Q * Q);
  md_crs : option string
}.

(** [sub in s] on strings. *)
Fixpoint contains (sub s : string) : bool :=
  if String.prefix sub s then true
  else match s with
       | EmptyString => false
       | String _ t => contains sub t
       end.

Definition is_wgs84 (crs : string) : bool :=
  contains "EPSG:4326" crs || contains "4326" crs.

(** [grid[obj_slice][component_mask]] *)
Definition select_mask {A : Type} (cm : mask) (g : list (list A)) : list A :=
  map snd (filter (fun bv => fst bv) (List.combine (concat cm) (concat g))).

(** Python's builtin [min(a, b)]: [b] when [b < a], else [a]. *)
Definition pymin (x y : float) : float := if ltb y x then y else x.

Definition of_nat (n : nat) : float := Fin (inject_Z (Z.of_nat n)).

Section WithConfig.

Variable config : ProcessingConfig.
Variable backend : VectorBackend.
Variable entropy : Entropy.

Definition default_priority : dict Q :=
  [ ("score_weight"%string, 5 # 10);
    ("depth_variance_weight"%string, 3 # 10);
    ("cluster_weight"%string, 2 # 10) ].

Definition _calculate_priority (mean_prob area : float) (local_depths : list float)
  : float :=
  let weights := or_default (scoring_priority config) default_priority in
  let score_priority := mul mean_prob (Fin (dict_get weights "score_weight" (5 # 10))) in
  let depth_priority :=
    if (1 <? List.length local_depths)%nat
    then
      let depth_var :=
        div (Np.std local_depths)
            (add (Np.mean (map abs local_depths)) (Fin (1 # 10000000000))) in
      mul (pymin depth_var (Fin 1))
          (Fin (dict_get weights "depth_variance_weight" (3 # 10)))
    else Fin 0 in
  let area_normalized := pymin (div area (Fin 100)) (Fin 1) in
  let area_priority :=
    mul area_normalized (Fin (dict_get weights "cluster_weight" (2 # 10))) in
  add (add score_priority depth_priority) area_priority.

Definition _infer_anomaly_type (detector_scores : dict float)
    (local_depths : list float) (full_data : grid) : AnomalyType :=
  match local_depths with
  | [] => UNKNOWN
  | _ =>
      let global_median := Np.nanmedian (concat full_data) in
      let local_mean := Np.mean local_depths in
      if gtb local_mean (mul global_median (Fin (15 # 10))) then SPIKE
      else if ltb local_mean (mul global_median (Fin (6 # 10))) then HOLE
      else if gtb (dict_get detector_scores "isolation_forest" (Fin 0)) (Fin (8 # 10))
           then NOISE_BAND
           else UNKNOWN
  end.

(** [max(items, key=lambda x: x[1])]: the first item of greatest value. *)
Fixpoint max_item (best : string * float) (items : dict float) : string * float :=
  match items with
  | [] => best
  | it :: t => max_item (if ltb (snd best) (snd it) then it else best) t
  end.

Definition _get_primary_reason (detector_scores : dict float)
    (detectors_triggered : list string) : string :=
  match detectors_triggered, detector_scores with
  | [], _ => "Score exceeded threshold"
  | _, [] => "Score exceeded threshold"
  | _, it :: t =>
      let max_detector := fst (max_item it t) in
      dict_get
        [ ("isolation_forest", "Unusual feature combination detected by Isolation Forest");
          ("zscore", "Depth significantly different from neighbors");
          ("spatial_consistency", "Inconsistent with surrounding surface") ]
        max_detector (String.append "Flagged by " max_detector)
  end%string.

(** The confidence tier of a mean probability. *)
Definition confidence_of (mean_prob : float) : ConfidenceLevel :=
  let conf_thresholds := confidence_thresholds config in
  if geb mean_prob (Fin (dict_get conf_thresholds "high" (8 # 10))) then HIGH
  else if geb mean_prob (Fin (dict_get conf_thresholds "medium" (5 # 10))) then MEDIUM
  else LOW.

Definition min_area : Z := or_default (polygons_min_area_pixels config) 25%Z.

(** The cleaned binary mask that is labelled. *)
Definition anomaly_mask (score_grid : grid) : mask :=
  let threshold := Fin (anomaly_threshold config) in
  let m := gmap (fun s => if isnan s then false else gtb s threshold) score_grid in
  if (1 <? min_area)%Z then binary_opening m else m.

(** The simplification step. *)
Definition simplify_geom (source_crs : option string) (geom : geometry_t backend)
  : geometry_t backend :=
  let simplify_tol := or_default (polygons_simplify_tolerance config) (1 # 10000) in
  if Qltb 0 simplify_tol then
    if match source_crs with Some crs => is_wgs84 crs | None => false end
    then simplify backend geom simplify_tol
    else if Qltb simplify_tol (1 # 10)
         then simplify backend geom (simplify_tol * 10)
         else simplify backend geom simplify_tol
  else geom.

(** The body of the loop for one component, after the two limit checks:
    [None] is a [continue]. *)
Definition build_anomaly (score_grid : grid) (metadata : Metadata)
    (detector_results : dict grid) (data : grid) (config_thresholds : dict Q)
    (transformer : option (transformer_t backend))
    (labeled : labels) (label_id : nat) (obj_slice : nat * nat * nat * nat)
    (w : World) : option (Anomaly (geometry_t backend) * World) :=
  match obj_slice with
  | (r0, r1, c0, c1) =>
      let threshold := Fin (anomaly_threshold config) in
      let sub_labeled := slice2 labeled r0 r1 c0 c1 in
      let component_mask := gmap (fun l => Nat.eqb l label_id) sub_labeled in
      let pixel_count := List.length (filter (fun b => b) (concat component_mask)) in
      if (Z.of_nat pixel_count <? min_area)%Z then None
      else
        let transform :=
          or_default (md_transform metadata)
                     {| a := 1; b := 0; c := 0; d := 0; e := -(1); f := 0 |} in
        let resolution := or_default (md_resolution metadata) (1, 1) in
        let sub_transform :=
          translate transform (inject_Z (Z.of_nat c0)) (inject_Z (Z.of_nat r0)) in
        match shapes backend component_mask sub_transform with
        | None => None
        | Some geom =>
            let geom :=
              match transformer with
              | Some t => match shapely_transform backend t geom with
                          | Some g' => g'
                          | None => geom
                          end
              | None => geom
              end in
            let geom := simplify_geom (md_crs metadata) geom in
            let cxy := centroid backend geom in
            let area :=
              mul (of_nat pixel_count)
                  (Fin (Qabs (fst resolution * snd resolution))) in
            let local_scores :=
              select_mask component_mask (slice2 score_grid r0 r1 c0 c1) in
            let local_depths :=
              Np.drop_nan (select_mask component_mask (slice2 data r0 r1 c0 c1)) in
            let detector_scores :=
              map (fun item =>
                     (fst item,
                      Np.nanmean (select_mask component_mask
                                    (slice2 (snd item) r0 r1 c0 c1))))
                  detector_results in
            let detectors_triggered :=
              map fst (filter (fun item => gtb (snd item) threshold) detector_scores) in
            let mean_prob := Np.nanmean local_scores in
            let confidence := confidence_of mean_prob in
            let qc := _calculate_priority mean_prob area local_depths in
            let atype := _infer_anomaly_type detector_scores local_depths data in
            let expl :=
              {| primary_reason := _get_primary_reason detector_scores detectors_triggered;
                 features := detector_scores;
                 thresholds := config_thresholds;
                 detector_flags := detectors_triggered;
                 pixel_count := pixel_count |} in
            Some ({| id := uuid4 entropy (uuid_calls w);
                     run_id := uuid4 entropy (S (uuid_calls w));
                     centroid_x := fst cxy;
                     centroid_y := snd cxy;
                     geometry := geom;
                     area_sq_meters := area;
                     anomaly_type := atype;
                     anomaly_probability := mean_prob;
                     confidence_level := confidence;
                     qc_priority := qc;
                     explanation := expl;
                     local_depth_mean :=
                       match local_depths with
                       | [] => None
                       | _ => Some (Np.mean local_depths)
                       end;
                     local_depth_std :=
                       match local_depths with
                       | [] => None
                       | _ => Some (Np.std local_depths)
                       end;
                     neighbor_count := pixel_count;
                     review_decision := PENDING;
                     created_at := utcnow entropy (clock_calls w) |},
                  {| uuid_calls := S (S (uuid_calls w));
                     clock_calls := S (clock_calls w) |})
        end
  end.

Definition max_anomalies : nat := 2000.
Definition max_scan_count : nat := 2000.

(** The loop [for label_id, obj_slice in enumerate(objects, start=1)]
    with its two [break]s. *)
Fixpoint scan (body : nat -> nat * nat * nat * nat -> World ->
                      option (Anomaly (geometry_t backend) * World))
    (objects : list (nat * option (nat * nat * nat * nat)))
    (anomalies : list (Anomaly (geometry_t backend))) (w : World)
  : list (Anomaly (geometry_t backend)) * World :=
  match objects with
  | [] => (anomalies, w)
  | (label_id, obj_slice) :: rest =>
      if (max_scan_count <? label_id)%nat then (anomalies, w)
      else match obj_slice with
           | None => scan body rest anomalies w
           | Some sl =>
               if (max_anomalies <=? List.length anomalies)%nat then (anomalies, w)
               else match body label_id sl w with
                    | None => scan body rest anomalies w
                    | Some (anomaly, w') => scan body rest (anomalies ++ [anomaly]) w'
                    end
           end
  end.

(** [anomalies.sort(key=lambda a: a.qc_priority, reverse=True)]: a stable
    sort by descending priority. *)
Fixpoint insert_desc (x : Anomaly (geometry_t backend))
    (l : list (Anomaly (geometry_t backend))) : list (Anomaly (geometry_t backend)) :=
  match l with
  | [] => [x]
  | y :: t =>
      if ltb (qc_priority x) (qc_priority y) then y :: insert_desc x t
      else x :: l
  end.

Definition sort_by_priority (l : list (Anomaly (geometry_t backend)))
  : list (Anomaly (geometry_t backend)) :=
  fold_right insert_desc [] l.

Definition polygonize (score_grid : grid) (metadata : Metadata)
    (detector_results : dict grid) (data : grid) (config_thresholds : dict Q)
    (w : World) : list (Anomaly (geometry_t backend)) * World :=
  let m := anomaly_mask score_grid in
  let (labeled, num_features) := label m in
  let objects := find_objects labeled num_features in
  match num_features with
  | O => ([], w)
  | _ =>
      let transformer :=
        match md_crs metadata with
        | Some crs =>
            if negb (String.eqb crs "") && negb (contains "EPSG:4326" crs)
               && negb (contains "4326" crs)
            then transformer_from_crs backend crs
            else None
        | None => None
        end in
      let (anomalies, w') :=
        scan (build_anomaly score_grid metadata detector_results data
                            config_thresholds transformer labeled)
             (List.combine (seq 1 num_features) objects) [] w in
      (sort_by_priority anomalies, w')
  end.

End WithConfig.

End Polygonizer.

(* ================================================================== *)
(** ** [MLPipeline.run_analysis]: extraction, detection, polygonization *)

Module MLPipeline.

Import Grid Config Entities.

Section WithConfig.

Variable config : ProcessingConfig.
Variable model : AnomalyDetector.IsolationForest.
Variable backend : Polygonizer.VectorBackend.
Variable entropy : Polygonizer.Entropy.

Definition set_run_id (rid : N) (x : Anomaly (Polygonizer.geometry_t backend))
  : Anomaly (Polygonizer.geometry_t backend) :=
  {| id := id x; run_id := rid;
     centroid_x := centroid_x x; centroid_y := centroid_y x;
     geometry := geometry x; area_sq_meters := area_sq_meters x;
     anomaly_type := anomaly_type x;
     anomaly_probability := anomaly_probability x;
     confidence_level := confidence_level x; qc_priority := qc_priority x;
     explanation := explanation x;
     local_depth_mean := local_depth_mean x;
     local_depth_std := local_depth_std x;
     neighbor_count := neighbor_count x;
     review_decision := review_decision x; created_at := created_at x |}.

(** The steps of [run_analysis] between loading the raster and writing
    the output files. *)
Definition run_analysis (data : grid) (metadata : Polygonizer.Metadata)
    (rid : N) (w : Polygonizer.World)
  : result (list (Anomaly (Polygonizer.geometry_t backend)) * Polygonizer.World) :=
  let features := FeatureExtractor.extract_features config data in
  detection_result <- AnomalyDetector.detect config model data features ;;
  let config_thresholds :=
    [ ("anomaly_threshold"%string, anomaly_threshold config);
      ("zscore_threshold"%string, or_default (threshold (zscore_config config)) 3);
      ("isolation_contamination"%string,
       or_default (contamination (isolation_forest_config config)) (1 # 10)) ] in
  let (anomalies, w') :=
    Polygonizer.polygonize config backend entropy
      (AnomalyDetector.score_grid detection_result) metadata
      (AnomalyDetector.detector_results detection_result) data
      config_thresholds w in
  Ok (map (set_run_id rid) anomalies, w').

End WithConfig.

End MLPipeline.

(* ================================================================== *)
(** ** The result counts of a run ([api/routes/runs.py]) *)

Module Runs.

Import Entities.

Definition level_eqb (a b : ConfidenceLevel) : bool :=
  match a, b with
  | LOW, LOW | MEDIUM, MEDIUM | HIGH, HIGH => true
  | _, _ => false
  end.

(** [sum(1 for a in anomalies if a.confidence_level == level)] *)
Definition count_confidence {G : Type} (level : ConfidenceLevel)
    (anomalies : list (Anomaly G)) : nat :=
  fold_left (fun n a => if level_eqb (confidence_level a) level then (n + 1)%nat else n)
            anomalies 0%nat.

(** The result fields that the background task writes on the run. *)
Record RunSummary : Type := {
  total_anomalies : nat;
  high_confidence_count : nat;
  medium_confidence_count : nat;
  low_confidence_count : nat
}.

Definition summarize {G : Type} (anomalies : list (Anomaly G)) : RunSummary :=
  {| total_anomalies := List.length anomalies;
     high_confidence_count := count_confidence HIGH anomalies;
     medium_confidence_count := count_confidence MEDIUM anomalies;
     low_confidence_count := count_confidence LOW anomalies |}.

End Runs.

(* ================================================================== *)
(** ** [HeatmapGenerator.generate]: the array written to the raster *)

Module HeatmapGenerator.

Import Grid Config.

(** [np.where(np.isnan(score_grid), nodata, score_grid)], where [nodata]
    is the configured heatmap nodata value and -9999 when the key path
    is absent; [nodata_value] is the value under that key path, when
    present.  The cast to float32 and the write are not modelled. *)
Definition output_data (nodata_value : option Q) (score_grid : grid) : grid :=
  let nodata := or_default nodata_value (-(9999)) in
  gmap (fun s => if isnan s then Fin nodata else s) score_grid.

End HeatmapGenerator.

(* ================================================================== *)
(** ** Instances used to run the pipeline on concrete grids *)

Module Sample.

Import Grid.

(** A scorer standing for a fitted forest: the decision score of a
    sample falls with the size of its last feature, the Laplacian. *)
Definition forest : AnomalyDetector.IsolationForest :=
  fun _ X =>
    map (fun row =>
           (1 # 2) - match nth 4 row NaN with
                     | Fin q => Qabs q
                     | _ => 0
                     end) X.

(** A vector backend whose geometry is the component mask with its
    transform, left as it is by simplification. *)
Definition backend : Polygonizer.VectorBackend := {|
  Polygonizer.geometry_t := (mask * Affine)%type;
  Polygonizer.transformer_t := unit;
  Polygonizer.shapes := fun m t => Some (m, t);
  Polygonizer.transformer_from_crs := fun _ => None;
  Polygonizer.shapely_transform := fun _ g => Some g;
  Polygonizer.simplify := fun g _ => g;
  Polygonizer.centroid := fun g => (Fin (c (snd g)), Fin (f (snd g)))
|}.

Definition entropy (seed : N) : Polygonizer.Entropy := {|
  Polygonizer.uuid4 := fun k => (seed + N.of_nat k)%N;
  Polygonizer.utcnow := fun k => (seed + N.of_nat k)%N
|}.

Definition world0 : Polygonizer.World :=
  {| Polygonizer.uuid_calls := 0; Polygonizer.clock_calls := 0 |}.

(** The closed square (0,0) (4,0) (4,4) (0,4) (0,0). *)
Definition square : list Contour.point := [(0, 0); (4, 0); (4, 4); (0, 4); (0, 0)].

Definition metadata0 : Polygonizer.Metadata :=
  {| Polygonizer.md_transform := None;
     Polygonizer.md_resolution := None;
     Polygonizer.md_crs := None |}.

(** A 2x3 depth grid, its transform and the two soundings selected from
    it with 2-pixel cells. *)
Definition depths : grid :=
  [ [Fin (-3); Fin (-1); NaN];
    [Fin 5; Fin 2; Fin (-7)] ].

Definition north_up : Affine := {| a := 1; b := 0; c := 0; d := 0; e := -(1); f := 0 |}.





Definition no_anomaly : Entities.Anomaly (Polygonizer.geometry_t backend) :=
  {| Entities.id := 0; Entities.run_id := 0;
     Entities.centroid_x := NaN; Entities.centroid_y := NaN;
     Entities.geometry := ([], north_up);
     Entities.area_sq_meters := NaN;
     Entities.anomaly_type := Entities.UNKNOWN;
     Entities.anomaly_probability := NaN;
     Entities.confidence_level := Entities.LOW;
     Entities.qc_priority := NaN;
     Entities.explanation :=
       {| Entities.primary_reason := ""; Entities.features := [];
          Entities.thresholds := []; Entities.detector_flags := [];
          Entities.pixel_count := 0 |};
     Entities.local_depth_mean := None; Entities.local_depth_std := None;
     Entities.neighbor_count := 0;
     Entities.review_decision := Entities.PENDING;
     Entities.created_at := 0 |}.


(** A 3x3 depth grid with one nodata cell in the middle. *)
Definition holed : grid :=
  [ [Fin 1; Fin 2; Fin 3];
    [Fin 4; NaN; Fin 6];
    [Fin 7; Fin 8; Fin 10] ].

(** A 4x4 depth grid with one nodata cell in its last corner. *)
Definition corner_hole : grid :=
  [ [Fin 1; Fin 2; Fin 3; Fin 4];
    [Fin 4; Fin 5; Fin 6; Fin 7];
    [Fin 7; Fin 8; Fin 10; Fin 11];
    [Fin 7; Fin 8; Fin 10; NaN] ].

(** A 2x2 grid that is nodata everywhere. *)
Definition all_nan : grid := [ [NaN; NaN]; [NaN; NaN] ].

Definition no_detection : AnomalyDetector.DetectionResult :=
  {| AnomalyDetector.anomaly_mask := [];
     AnomalyDetector.score_grid := [];
     AnomalyDetector.detector_results := [] |}.

Definition detection_of (config : Config.ProcessingConfig) (data : grid)
  : AnomalyDetector.DetectionResult :=
  match AnomalyDetector.detect config forest data
          (FeatureExtractor.extract_features config data) with
  | Ok r => r
  | Raise _ => no_detection
  end.

(** The defaults with the combination weights set and the plain z-score
    branch of the z-score detector ([use_mad] off) with its threshold. *)
Definition with_weights (weights : Config.dict Q) (threshold : option Q)
  : Config.ProcessingConfig :=
  {| Config.neighborhood_window_size := None;
     Config.roughness_window_size := None;
     Config.isolation_forest_enabled := None;
     Config.isolation_forest_config := Config.isolation_forest_config Config.empty;
     Config.zscore_enabled := None;
     Config.zscore_config :=
       {| Config.threshold := threshold; Config.use_mad := Some false;
          Config.mad_threshold := None |};
     Config.scoring_weights := Some weights;
     Config.scoring_priority := None;
     Config.scoring_confidence_thresholds := None;
     Config.polygons_anomaly_threshold := None;
     Config.polygons_min_area_pixels := None;
     Config.polygons_simplify_tolerance := None |}.

(** Weights 1.0 and -0.5. *)
Definition signed_weights : Config.ProcessingConfig :=
  with_weights [("isolation_forest"%string, 1); ("zscore"%string, -(1 # 2))] None.

(** The default weights with a z-score threshold of -3. *)
Definition negative_threshold : Config.ProcessingConfig :=
  with_weights AnomalyDetector.default_weights (Some (-(3))).

Definition holed_detection : AnomalyDetector.DetectionResult :=
  detection_of Config.empty holed.

Definition signed_detection : AnomalyDetector.DetectionResult :=
  detection_of signed_weights holed.

Definition negative_detection : AnomalyDetector.DetectionResult :=
  detection_of negative_threshold holed.

(** The defaults with the z-score detector switched off and a minimum
    area of one pixel. *)
Definition tiny_area : Config.ProcessingConfig :=
  {| Config.neighborhood_window_size := None;
     Config.roughness_window_size := None;
     Config.isolation_forest_enabled := None;
     Config.isolation_forest_config := Config.isolation_forest_config Config.empty;
     Config.zscore_enabled := Some false;
     Config.zscore_config := Config.zscore_config Config.empty;
     Config.scoring_weights := None;
     Config.scoring_priority := None;
     Config.scoring_confidence_thresholds := None;
     Config.polygons_anomaly_threshold := None;
     Config.polygons_min_area_pixels := Some 1%Z;
     Config.polygons_simplify_tolerance := None |}.

(** The anomalies of one analysis of [holed], run 7, with the fresh
    values drawn from [entropy seed]. *)
Definition analysis (seed : N)
  : result (list (Entities.Anomaly (Polygonizer.geometry_t backend))
            * Polygonizer.World) :=
  MLPipeline.run_analysis tiny_area forest backend (entropy seed)
                          holed metadata0 7 world0.

Definition anomalies_of (seed : N) :=
  match analysis seed with
  | Ok p => fst p
  | Raise _ => []
  end.




(** Both detectors switched off. *)
Definition detectors_off : Config.ProcessingConfig :=
  let c := Config.empty in
  {| Config.neighborhood_window_size := Config.neighborhood_window_size c;
     Config.roughness_window_size := Config.roughness_window_size c;
     Config.isolation_forest_enabled := Some false;
     Config.isolation_forest_config := Config.isolation_forest_config c;
     Config.zscore_enabled := Some false;
     Config.zscore_config := Config.zscore_config c;
     Config.scoring_weights := Config.scoring_weights c;
     Config.scoring_priority := Config.scoring_priority c;
     Config.scoring_confidence_thresholds := Config.scoring_confidence_thresholds c;
     Config.polygons_anomaly_threshold := Config.polygons_anomaly_threshold c;
     Config.polygons_min_area_pixels := Config.polygons_min_area_pixels c;
     Config.polygons_simplify_tolerance := Config.polygons_simplify_tolerance c |}.

(** What deep mode selects on [depths]. *)
Definition deep_soundings : list Sounding.SoundingPoint :=
  [ {| Sounding.x := 2 # 4; Sounding.y := -6 # 4; Sounding.depth := Fin 5;
       Sounding.selection_type := Sounding.Deep; Sounding.cell_id := (0%nat, 0%nat) |};
    {| Sounding.x := 10 # 4; Sounding.y := -6 # 4; Sounding.depth := Fin (-7);
       Sounding.selection_type := Sounding.Deep; Sounding.cell_id := (0%nat, 1%nat) |} ].

(** An open path of three vertices, and a path of a single vertex. *)
Definition open_corner : list Contour.point := [ (0, 0); (4, 0); (4, 4) ].

Definition lone_vertex : list Contour.point := [ (1, 2) ].

End Sample.

(* ================================================================== *)
(** ** Vocabulary of the statements *)

Module Props.

Import Grid Entities.


(** A cell value lies in [0, 1]. *)
Definition in_unit (x : float) : bool := leb (Fin 0) x && leb x (Fin 1).

(** Two arrays have their NaN cells at the same places. *)
Definition same_nan_mask (g h : grid) : Prop :=
  forall i j, option_map isnan (cell g i j) = option_map isnan (cell h i j).

(** The row lengths of an array. *)
Definition shape {A : Type} (g : list (list A)) : list nat := map (@List.length A) g.


(** The weight [_combine_scores] gives a detector. *)
Definition weight_of (weights : Config.dict Q) (item : string * grid) : Q :=
  Config.dict_get weights (fst item) (1 # 10).

(** What one turn of the combination loop does to the cell [(i, j)]. *)
Definition accumulate_cell (weights : Config.dict Q) (i j : nat)
    (acc : float) (item : string * grid) : float :=
  add acc (mul (Fin (weight_of weights item))
               (get_const NaN (snd item) (Z.of_nat i) (Z.of_nat j))).

(** The finite value of a detector surface at [(i, j)], 0 otherwise. *)
Definition surface_value (i j : nat) (item : string * grid) : Q :=
  match get_const NaN (snd item) (Z.of_nat i) (Z.of_nat j) with
  | Fin q => q
  | _ => 0
  end.

(** No configured combination weight is negative. *)
Definition nonneg_weights (config : Config.ProcessingConfig) : Prop :=
  forall k w,
    Config.lookup k (Config.or_default (Config.scoring_weights config)
                                       AnomalyDetector.default_weights) = Some w ->
    0 <= w.

(** Neither z-score threshold is negative. *)
Definition nonneg_thresholds (config : Config.ProcessingConfig) : Prop :=
  0 <= Config.or_default (Config.mad_threshold (Config.zscore_config config)) (35 # 10) /\
  0 <= Config.or_default (Config.threshold (Config.zscore_config config)) 3.

(** An anomaly without the values drawn fresh when it is created: its
    id, its run id and its creation time. *)
Definition erase_fresh {G : Type} (x : Anomaly G) : Anomaly G :=
  {| id := 0; run_id := 0;
     centroid_x := centroid_x x; centroid_y := centroid_y x;
     geometry := geometry x; area_sq_meters := area_sq_meters x;
     anomaly_type := anomaly_type x;
     anomaly_probability := anomaly_probability x;
     confidence_level := confidence_level x; qc_priority := qc_priority x;
     explanation := explanation x;
     local_depth_mean := local_depth_mean x;
     local_depth_std := local_depth_std x;
     neighbor_count := neighbor_count x;
     review_decision := review_decision x; created_at := 0 |}.

(** No priority is followed by a greater one. *)
Definition descending (priorities : list float) : Prop :=
  Sorted (fun p q => ltb p q = false) priorities.






(** NaN, [+inf] or a finite value that is not negative: what an absolute
    value can be. *)
Definition nonneg_or_nan (x : float) : Prop :=
  match x with
  | NaN | PInf => True
  | NInf => False
  | Fin q => 0 <= q
  end.

(** [nan_to_num(minimum(x / threshold, 1.0), nan=0)] is always finite; it
    is 0 on NaN, and lies in [0, 1] when [x] is not negative and the
    threshold is not negative. *)
Definition clip (x : float) (thr : Q) : float :=
  nan_to_num 0 None None (minimum (div x (Fin thr)) (Fin 1)).


End Props.

(* ================================================================== *)
(** * Properties *)

(** ** Order facts about [float] *)

Lemma Qltb_lt (x y : Q) : Qltb x y = true <-> x < y.
Proof.
  unfold Qltb. rewrite negb_true_iff.
  split; intro H.
  - destruct (Qlt_le_dec x y) as [Hlt | Hle]; [exact Hlt |].
    apply Qle_bool_iff in Hle. congruence.
  - destruct (Qle_bool y x) eqn:E; [| reflexivity].
    apply Qle_bool_iff in E. exfalso. apply (Qlt_irrefl x).
    eapply Qlt_le_trans; eassumption.
Qed.

Lemma Qltb_ge (x y : Q) : Qltb x y = false <-> y <= x.
Proof.
  unfold Qltb. rewrite negb_false_iff. apply Qle_bool_iff.
Qed.



Lemma leb_trans (x y z : float) :
  leb x y = true -> leb y z = true -> leb x z = true.
Proof.
  destruct x, y, z; simpl; try congruence.
  rewrite !Qle_bool_iff. apply Qle_trans.
Qed.

Lemma leb_refl (x : float) : isnan x = false -> leb x x = true.
Proof.
  destruct x; simpl; try congruence. intros _. apply Qle_bool_iff, Qle_refl.
Qed.

(** On values that are not NaN the order is total. *)
Lemma ltb_false_leb (x y : float) :
  isnan x = false -> isnan y = false -> ltb x y = false -> leb y x = true.
Proof.
  destruct x, y; simpl; try congruence.
  intros _ _ H. apply Qle_bool_iff. apply Qltb_ge. exact H.
Qed.

Lemma ltb_leb (x y : float) : ltb x y = true -> leb x y = true.
Proof.
  destruct x, y; simpl; try congruence.
  rewrite Qltb_lt, Qle_bool_iff. apply Qlt_le_weak.
Qed.

Lemma ltb_leb_trans (x y z : float) :
  ltb x y = true -> leb y z = true -> ltb x z = true.
Proof.
  destruct x, y, z; simpl; try congruence.
  rewrite !Qltb_lt, Qle_bool_iff. apply Qlt_le_trans.
Qed.

Lemma isnan_abs (x : float) : isnan (abs x) = isnan x.
Proof. destruct x; reflexivity. Qed.

(* ------------------------------------------------------------------ *)
(** ** Rounding to double precision *)







(* ------------------------------------------------------------------ *)
(** ** Chaikin smoothing of a ring *)

Section Chaikin.

Import Contour.

(** The last quarter point cut from a path of at least two vertices lies
    on its last edge, a quarter before the last vertex. *)
Lemma quarter_points_last (l : list point) (p0 p1 d : point) :
  last (quarter_points (p0 :: p1 :: l)) d =
  let path := p0 :: p1 :: l in
  combine (1 # 4) (3 # 4)
          (nth (List.length path - 2) path d) (nth (List.length path - 1) path d).
Proof.
  revert p0 p1. induction l as [| p2 l IH]; intros p0 p1.
  - reflexivity.
  - change (quarter_points (p0 :: p1 :: p2 :: l))
      with (combine (3 # 4) (1 # 4) p0 p1 :: combine (1 # 4) (3 # 4) p0 p1
              :: quarter_points (p1 :: p2 :: l)).
    change (last (?x :: ?y :: quarter_points (p1 :: p2 :: l)) d)
      with (last (quarter_points (p1 :: p2 :: l)) d).
    rewrite IH. cbv zeta. simpl List.length.
    replace (S (S (S (List.length l))) - 2)%nat with (S (S (List.length l) - 1))%nat by lia.
    replace (S (S (S (List.length l))) - 1)%nat with (S (S (S (List.length l)) - 1))%nat by lia.
    replace (S (S (List.length l)) - 2)%nat with (S (List.length l) - 1)%nat by lia.
    reflexivity.
Qed.

(** One pass over a ring (first and last vertex close) keeps only the
    quarter points: the new path starts a quarter into the first edge and
    ends a quarter before the end of the last edge. *)
Lemma chaikin_pass_ring (l : list point) (p0 p1 : point) :
  let path := p0 :: p1 :: l in
  allclose p0 (last path p0) = true ->
  exists r,
    chaikin_pass path = Ok r /\
    hd p0 r = combine (3 # 4) (1 # 4) p0 p1 /\
    last r p0 =
      combine (1 # 4) (3 # 4)
              (nth (List.length path - 2) path p0) (nth (List.length path - 1) path p0).
Proof.
  intros path Hclose. exists (quarter_points path). repeat split.
  - unfold chaikin_pass, path. fold path. rewrite Hclose. simpl negb.
    cbv iota. now rewrite app_nil_r.
  - apply quarter_points_last.
Qed.

(** C4, at a closed ring: the closed square
    (0,0) (4,0) (4,4) (0,4) (0,0) is returned as an open path after 1, 2
    and 3 passes; after one pass it runs from (1,0) to (0,1). *)
Theorem chaikin_smooth_opens_square :
  is_closed Sample.square = true /\
  (exists r, _chaikin_smooth Sample.square 1 = Ok r /\
             same_point (hd (0, 0) r) (1, 0) = true /\
             same_point (last r (0, 0)) (0, 1) = true /\
             allclose (hd (0, 0) r) (last r (0, 0)) = false /\
             is_closed r = false) /\
  (exists r, _chaikin_smooth Sample.square 2 = Ok r /\ is_closed r = false) /\
  (exists r, _chaikin_smooth Sample.square 3 = Ok r /\ is_closed r = false).
Proof.
  split; [reflexivity |].
  split; [| split]; eexists; (split; [vm_compute; reflexivity |]);
    repeat split; vm_compute; reflexivity.
Qed.

End Chaikin.

(* ------------------------------------------------------------------ *)
(** ** Confidence tiers *)

Section Confidence.

Import Config Entities Props.

Variable config : ProcessingConfig.



End Confidence.

(* ------------------------------------------------------------------ *)
(** ** Cells of arrays built cell by cell *)

Section GridFacts.

Import Grid.

Lemma mapi_from_length {A B : Type} (f : nat -> A -> B) (l : list A) (k : nat) :
  List.length (mapi_from k f l) = List.length l.
Proof.
  revert k. induction l as [| v t IH]; intros k; simpl; [reflexivity |].
  now rewrite IH.
Qed.

Lemma mapi_from_nth_error {A B : Type} (f : nat -> A -> B) (l : list A) (k i : nat) :
  nth_error (mapi_from k f l) i = option_map (f (k + i)%nat) (nth_error l i).
Proof.
  revert k i. induction l as [| v t IH]; intros k i.
  - destruct i; reflexivity.
  - destruct i as [| i]; simpl.
    + now rewrite Nat.add_0_r.
    + rewrite IH. now rewrite Nat.add_succ_r.
Qed.

Lemma mapi_nth_error {A B : Type} (f : nat -> A -> B) (l : list A) (i : nat) :
  nth_error (mapi f l) i = option_map (f i) (nth_error l i).
Proof. unfold mapi. now rewrite mapi_from_nth_error. Qed.

Lemma cell_gmapi {A B : Type} (f : nat -> nat -> A -> B) (g : list (list A)) (i j : nat) :
  cell (gmapi f g) i j = option_map (f i j) (cell g i j).
Proof.
  unfold cell, gmapi. rewrite mapi_nth_error.
  destruct (nth_error g i) as [row |]; simpl; [| reflexivity].
  apply mapi_nth_error.
Qed.

Lemma cell_gmap {A B : Type} (f : A -> B) (g : list (list A)) (i j : nat) :
  cell (gmap f g) i j = option_map f (cell g i j).
Proof.
  unfold cell, gmap. rewrite nth_error_map.
  destruct (nth_error g i) as [row |]; simpl; [| reflexivity].
  apply nth_error_map.
Qed.

Lemma get_const_cell {A : Type} (d : A) (g : list (list A)) (i j : nat) :
  get_const d g (Z.of_nat i) (Z.of_nat j) =
  match cell g i j with Some v => v | None => d end.
Proof.
  unfold get_const.
  replace (Z.of_nat i <? 0)%Z with false by (symmetry; apply Z.ltb_ge; lia).
  replace (Z.of_nat j <? 0)%Z with false by (symmetry; apply Z.ltb_ge; lia).
  simpl. now rewrite !Nat2Z.id.
Qed.

End GridFacts.

(* ------------------------------------------------------------------ *)
(** ** Shoal-biased sounding selection *)

Section Shoal.

Import Grid Sounding Props.




Lemma collect_In {X Y : Type} (body : X -> result (option Y)) (l : list X)
    (out : list Y) (v : Y) :
  collect body l = Ok out -> In v out ->
  exists i, In i l /\ body i = Ok (Some v).
Proof.
  revert out. induction l as [| i t IH]; intros out.
  - simpl. intros H. injection H as <-. intros [].
  - simpl. destruct (body i) as [r |] eqn:Eb; [| discriminate].
    simpl. destruct (collect body t) as [rest |] eqn:Ec; [| discriminate].
    simpl. intros H. injection H as <-. intros Hin.
    destruct r as [v' |].
    + destruct Hin as [<- | Hin].
      * exists i. split; [now left | exact Eb].
      * destruct (IH rest eq_refl Hin) as (i' & Hi' & Hb').
        exists i'. split; [now right | exact Hb'].
    + destruct (IH rest eq_refl Hin) as (i' & Hi' & Hb').
      exists i'. split; [now right | exact Hb'].
Qed.

Lemma cell_pixels_pos (cell_size pixel_size : Q) (n : nat) :
  cell_pixels cell_size pixel_size = Ok n -> (1 <= n)%nat.
Proof.
  unfold cell_pixels. destruct (Qeq_bool pixel_size 0); [discriminate |].
  intros H. injection H as <-. lia.
Qed.

(** The starts of [range(0, stop, step)] lie below [stop] and are
    multiples of [step]. *)
Lemma range_step_In (stop step x : nat) :
  (1 <= step)%nat -> In x (range_step stop step) ->
  (x < stop)%nat /\ (x / step * step = x)%nat.
Proof.
  intros Hstep Hin. unfold range_step in Hin.
  apply in_map_iff in Hin. destruct Hin as (k & <- & Hk).
  apply in_seq in Hk. split.
  - assert (Hd : (S k <= (stop + step - 1) / step)%nat) by lia.
    assert (Hm : (step * ((stop + step - 1) / step) <= stop + step - 1)%nat)
      by (apply Nat.Div0.mul_div_le).
    nia.
  - rewrite Nat.div_mul by lia. reflexivity.
Qed.

(** The cell that starts at [(row_start, col_start)] lies in the grid
    and is the cell numbered [(row_start / cpy, col_start / cpx)]. *)
Lemma cell_starts_In (rows cols cpx cpy row_start col_start : nat) :
  (1 <= cpx)%nat -> (1 <= cpy)%nat ->
  In (row_start, col_start) (cell_starts rows cols cpx cpy) ->
  (row_start < rows)%nat /\ (row_start / cpy * cpy = row_start)%nat /\
  (col_start < cols)%nat /\ (col_start / cpx * cpx = col_start)%nat.
Proof.
  intros Hx Hy Hin. unfold cell_starts in Hin.
  apply in_flat_map in Hin. destruct Hin as (r & Hr & Hin).
  apply in_map_iff in Hin. destruct Hin as (c & E & Hc).
  injection E as <- <-.
  destruct (@range_step_In _ _ _ Hy Hr). destruct (@range_step_In _ _ _ Hx Hc). tauto.
Qed.





End Shoal.


(* ------------------------------------------------------------------ *)
(** ** The polygonizer loop *)

Section PolygonizerLoop.

Import Grid Config Entities Morphology Polygonizer.

Variable config : ProcessingConfig.
Variable backend : VectorBackend.
Variable entropy : Entropy.

Local Abbreviation anomaly := (Anomaly (geometry_t backend)) (only parsing).

Lemma insert_desc_In (a x : anomaly) (l : list anomaly) :
  In x (insert_desc backend a l) <-> x = a \/ In x l.
Proof.
  induction l as [| y t IH]; simpl.
  - intuition.
  - destruct (ltb (qc_priority a) (qc_priority y)); simpl; rewrite ?IH; intuition.
Qed.

Lemma sort_by_priority_In (x : anomaly) (l : list anomaly) :
  In x (sort_by_priority backend l) <-> In x l.
Proof.
  unfold sort_by_priority. induction l as [| a t IH]; simpl; [tauto |].
  rewrite insert_desc_In, IH. intuition.
Qed.

Lemma scan_cons body label_id obj_slice rest (acc : list anomaly) (w : World) :
  scan backend body ((label_id, obj_slice) :: rest) acc w =
  if (max_scan_count <? label_id)%nat then (acc, w)
  else match obj_slice with
       | None => scan backend body rest acc w
       | Some sl =>
           if (max_anomalies <=? List.length acc)%nat then (acc, w)
           else match body label_id sl w with
                | None => scan backend body rest acc w
                | Some (a, w') => scan backend body rest (acc ++ [a]) w'
                end
       end.
Proof. reflexivity. Qed.

(** Whatever the loop returns was either collected before or built by the
    loop body from one of the objects. *)
Lemma scan_In body objects :
  forall (acc : list anomaly) (w : World) (x : anomaly),
    In x (fst (scan backend body objects acc w)) ->
    In x acc \/
    exists label_id sl w0 w1,
      In (label_id, Some sl) objects /\ body label_id sl w0 = Some (x, w1).
Proof.
  induction objects as [| [label_id obj_slice] rest IH]; intros acc w x.
  - now left.
  - rewrite scan_cons.
    destruct (max_scan_count <? label_id)%nat; [now left |].
    destruct obj_slice as [sl |].
    + destruct (max_anomalies <=? List.length acc)%nat; [now left |].
      destruct (body label_id sl w) as [[a w'] |] eqn:Eb.
      * intros H. apply IH in H. destruct H as [H | (l' & s' & w0 & w1 & Hin & Hb)].
        -- apply in_app_or in H. destruct H as [H | [<- | []]]; [now left |].
           right. exists label_id, sl, w, w'. split; [now left | exact Eb].
        -- right. exists l', s', w0, w1. split; [now right | exact Hb].
      * intros H. apply IH in H. destruct H as [H | (l' & s' & w0 & w1 & Hin & Hb)].
        -- now left.
        -- right. exists l', s', w0, w1. split; [now right | exact Hb].
    + intros H. apply IH in H. destruct H as [H | (l' & s' & w0 & w1 & Hin & Hb)].
      * now left.
      * right. exists l', s', w0, w1. split; [now right | exact Hb].
Qed.

Lemma in_combine_seq_map {Y : Type} (fn : nat -> Y) (n : nat) :
  forall (s k : nat) (y : Y),
    In (k, y) (List.combine (seq s n) (map fn (seq s n))) ->
    fn k = y /\ (s <= k < s + n)%nat.
Proof.
  induction n as [| n IH]; intros s k y; simpl; [intros [] |].
  intros [H | H].
  - injection H as <- <-. split; [reflexivity | lia].
  - apply IH in H. destruct H as [H1 H2]. split; [exact H1 | lia].
Qed.

(** Every returned anomaly was built from a labelled component of the
    cleaned mask. *)
Lemma polygonize_In score_grid metadata detector_results data config_thresholds w x :
  In x (fst (polygonize config backend entropy score_grid metadata
                        detector_results data config_thresholds w)) ->
  exists transformer label_id sl w0 w1,
    let labeled := fst (label (anomaly_mask config score_grid)) in
    let num_features := snd (label (anomaly_mask config score_grid)) in
    (1 <= label_id <= num_features)%nat /\
    bounding_box labeled label_id = Some sl /\
    build_anomaly config backend entropy score_grid metadata detector_results data
                  config_thresholds transformer labeled label_id sl w0
      = Some (x, w1).
Proof.
  unfold polygonize.
  destruct (label (anomaly_mask config score_grid)) as [labeled n] eqn:El.
  destruct n as [| n]; [intros [] |].
  match goal with
  | |- context [scan backend ?b ?o ?a ?w] => destruct (scan backend b o a w) as [anoms w'] eqn:Es
  end.
  simpl fst. intros H. apply (proj1 (sort_by_priority_In _ _)) in H.
  match type of Es with
  | scan _ ?b ?o _ _ = _ => pose proof (@scan_In b o [] w x) as Hs
  end.
  rewrite Es in Hs. simpl fst in Hs.
  destruct (Hs H) as [[] | (label_id & sl & w0 & w1 & Hin & Hb)].
  eexists. exists label_id, sl, w0, w1. cbv zeta. simpl fst. simpl snd.
  unfold find_objects in Hin. apply in_combine_seq_map in Hin.
  destruct Hin as (Hbb & Hk). repeat split; [lia | lia | exact Hbb | exact Hb].
Qed.


End PolygonizerLoop.

(* ------------------------------------------------------------------ *)
(** ** Masks, opening and labels *)

Section MaskFacts.

Import Grid Morphology Props.

Lemma get_const_true (m : mask) (i j : Z) :
  get_const false m i j = true ->
  (0 <= i)%Z /\ (0 <= j)%Z /\ cell m (Z.to_nat i) (Z.to_nat j) = Some true.
Proof.
  unfold get_const.
  destruct (Z.ltb_spec i 0); [discriminate |].
  destruct (Z.ltb_spec j 0); [discriminate |]. simpl.
  destruct (cell m (Z.to_nat i) (Z.to_nat j)) as [[|] |]; try discriminate.
  intros _. auto.
Qed.

Lemma opposite_offset (dz : Z) : In dz offsets3 -> In (- dz)%Z offsets3.
Proof. simpl. intuition (subst; simpl; auto). Qed.

Lemma some_inj {A : Type} (x y : A) : Some x = Some y -> x = y.
Proof. congruence. Qed.

(** Opening is anti-extensive: it never sets a cell that was clear. *)
Lemma binary_opening_subset (m : mask) (i j : nat) :
  cell (binary_opening m) i j = Some true -> cell m i j = Some true.
Proof.
  unfold binary_opening, binary_dilation. rewrite cell_gmapi.
  destruct (cell (binary_erosion m) i j) as [v |]; [| discriminate].
  cbn [option_map]. intros H. apply some_inj in H.
  apply existsb_exists in H. destruct H as (di & Hdi & H).
  apply existsb_exists in H. destruct H as (dj & Hdj & H).
  apply get_const_true in H. destruct H as (Hi & Hj & H).
  unfold binary_erosion in H. rewrite cell_gmapi in H.
  destruct (cell m (Z.to_nat (Z.of_nat i + di)) (Z.to_nat (Z.of_nat j + dj)));
    [| discriminate].
  cbn [option_map] in H. apply some_inj in H.
  rewrite forallb_forall in H. specialize (H (- di)%Z (opposite_offset Hdi)).
  rewrite forallb_forall in H. specialize (H (- dj)%Z (opposite_offset Hdj)).
  rewrite !Z2Nat.id in H by assumption.
  replace (Z.of_nat i + di + - di)%Z with (Z.of_nat i) in H by lia.
  replace (Z.of_nat j + dj + - dj)%Z with (Z.of_nat j) in H by lia.
  apply get_const_true in H. now rewrite !Nat2Z.id in H.
Qed.




End MaskFacts.

(* ------------------------------------------------------------------ *)
(** ** Shapes, slices and boolean-mask selection *)

Section ShapeFacts.

Import Grid Morphology Props.

Lemma shape_gmap {A B : Type} (fn : A -> B) (g : list (list A)) :
  shape (gmap fn g) = shape g.
Proof.
  unfold shape, gmap. rewrite map_map. apply map_ext. intros row.
  apply length_map.
Qed.

Lemma shape_mapi_rows {A B : Type} (fn : nat -> list A -> list B) (g : list (list A)) :
  (forall i row, List.length (fn i row) = List.length row) ->
  shape (mapi fn g) = shape g.
Proof.
  intros Hlen. unfold shape, mapi. generalize 0%nat.
  induction g as [| row t IH]; intros k; simpl; [reflexivity |].
  now rewrite Hlen, IH.
Qed.

Lemma shape_gmapi {A B : Type} (fn : nat -> nat -> A -> B) (g : list (list A)) :
  shape (gmapi fn g) = shape g.
Proof.
  unfold gmapi. apply shape_mapi_rows. intros i row. apply mapi_from_length.
Qed.













End ShapeFacts.

(* ------------------------------------------------------------------ *)
(** ** The mean of values above a threshold *)

Section MeanFacts.


Import Props.








End MeanFacts.

(* ------------------------------------------------------------------ *)
(** ** Bounding boxes of labels *)

Section BoxFacts.

Import Grid Morphology Props.





Lemma same_shape_cell {A B : Type} (g : list (list A)) (h : list (list B))
    (i j : nat) (v : A) :
  shape g = shape h -> cell g i j = Some v -> exists u, cell h i j = Some u.
Proof.
  unfold shape, cell. intros Hs Hc.
  destruct (nth_error g i) as [row |] eqn:Eg; [| discriminate].
  assert (Hlen : nth_error (map (@List.length A) g) i = Some (List.length row))
    by (now rewrite nth_error_map, Eg).
  rewrite Hs, nth_error_map in Hlen.
  destruct (nth_error h i) as [row' |]; [| discriminate].
  simpl in Hlen. injection Hlen as Hlen.
  assert (Hj : (j < List.length row')%nat).
  { rewrite Hlen. apply nth_error_Some. congruence. }
  apply nth_error_Some in Hj. destruct (nth_error row' j) as [u |]; [| congruence].
  now exists u.
Qed.

End BoxFacts.

(* ------------------------------------------------------------------ *)
(** ** Anomalies returned by the polygonizer *)

Section PolygonizerProps.

Import Grid Config Entities Morphology Polygonizer Props.

Variable config : ProcessingConfig.
Variable backend : VectorBackend.
Variable entropy : Entropy.


(** A set cell of the cleaned mask has a score above the threshold. *)
Lemma anomaly_mask_above (score_grid : grid) (i j : nat) :
  cell (anomaly_mask config score_grid) i j = Some true ->
  exists s, cell score_grid i j = Some s /\
            ltb (Fin (anomaly_threshold config)) s = true.
Proof.
  unfold anomaly_mask. intros H.
  assert (H' : cell (gmap (fun s => if isnan s then false
                                    else gtb s (Fin (anomaly_threshold config)))
                          score_grid) i j = Some true).
  { destruct (1 <? min_area config)%Z; [now apply binary_opening_subset | exact H]. }
  rewrite cell_gmap in H'.
  destruct (cell score_grid i j) as [s |]; [| discriminate].
  exists s. split; [reflexivity |]. simpl in H'. apply some_inj in H'.
  now destruct (isnan s).
Qed.




End PolygonizerProps.

(* ------------------------------------------------------------------ *)
(** ** Counting the cells of a component inside its box *)

Section CountFacts.

Import Grid Morphology Props.

Context {A : Type} (keep : A -> bool).

Lemma filter_none (l : list A) :
  (forall x, In x l -> keep x = false) -> filter keep l = [].
Proof.
  induction l as [| x l IH]; intros H; simpl; [reflexivity |].
  rewrite (H x) by now left. apply IH. intros y Hy. apply H. now right.
Qed.






End CountFacts.

(* ------------------------------------------------------------------ *)
(** ** Minimum area *)

Section MinimumArea.

Import Grid Config Entities Morphology Polygonizer Props.

Variable config : ProcessingConfig.
Variable backend : VectorBackend.
Variable entropy : Entropy.



End MinimumArea.





(* ------------------------------------------------------------------ *)
(** ** Detector surfaces *)

Section DetectorFacts.

Import Grid Config AnomalyDetector Props.

Lemma Qsgn_pos (q : Q) : 0 < q -> Qsgn q = Gt.
Proof.
  unfold Qsgn, Qlt. simpl. rewrite Z.mul_1_r. intros H.
  apply Z.compare_gt_iff. exact H.
Qed.

Lemma Qsgn_lt (q : Q) : Qsgn q = Lt -> q < 0.
Proof.
  unfold Qsgn, Qlt. simpl. rewrite Z.mul_1_r. intros H.
  now apply Z.compare_lt_iff.
Qed.

Lemma Qsgn_gt (q : Q) : Qsgn q = Gt -> 0 < q.
Proof.
  unfold Qsgn, Qlt. simpl. rewrite Z.mul_1_r. intros H.
  now apply Z.compare_gt_iff.
Qed.

Lemma Qsgn_eq (q : Q) : Qsgn q = Eq -> q == 0.
Proof.
  unfold Qsgn, Qeq. simpl. rewrite Z.mul_1_r. intros H.
  now apply Z.compare_eq_iff.
Qed.

Lemma abs_nonneg (x : float) : nonneg_or_nan (abs x).
Proof. destruct x; simpl; auto. apply Qabs_nonneg. Qed.

Lemma div_nonneg (x y : float) :
  nonneg_or_nan x -> ltb y (Fin (1 # 10000000000)) = false ->
  nonneg_or_nan (div x y).
Proof.
  destruct x as [| | | a], y as [| | | b]; simpl; intros Hx Hy;
    try contradiction; try discriminate; auto; try apply Qle_refl.
  - apply Qltb_ge in Hy. rewrite Qsgn_pos by lra. exact I.
  - apply Qltb_ge in Hy. rewrite Qsgn_pos by lra. simpl.
    apply Qle_shift_div_l; lra.
Qed.

Lemma clip_finite (x : float) (thr : Q) : exists q, clip x thr = Fin q.
Proof.
  unfold clip. destruct (minimum (div x (Fin thr)) (Fin 1)); simpl; eauto.
Qed.

Lemma clip_nan (thr : Q) : clip NaN thr = Fin 0.
Proof. reflexivity. Qed.

Lemma clip_unit (x : float) (thr : Q) :
  nonneg_or_nan x -> 0 <= thr ->
  exists q, clip x thr = Fin q /\ 0 <= q <= 1.
Proof.
  unfold clip. intros Hx Hthr.
  destruct x as [| | | a]; simpl in Hx; try contradiction.
  - exists 0. split; [reflexivity | lra].
  - simpl div. destruct (Qsgn thr) eqn:Es; simpl.
    + exists 1. split; [reflexivity | lra].
    + apply Qsgn_lt in Es. lra.
    + exists 1. split; [reflexivity | lra].
  - simpl div. destruct (Qsgn thr) eqn:Es.
    + unfold inf_times. destruct (Qsgn a) eqn:Ea; simpl.
      * exists 0. split; [reflexivity | lra].
      * apply Qsgn_lt in Ea. lra.
      * exists 1. split; [reflexivity | lra].
    + apply Qsgn_lt in Es. lra.
    + apply Qsgn_gt in Es.
      assert (Hq : 0 <= a / thr) by (apply Qle_shift_div_l; lra).
      simpl. destruct (Qle_bool (a / thr) 1) eqn:E; simpl.
      * apply Qle_bool_iff in E. exists (a / thr). split; [reflexivity | lra].
      * exists 1. split; [reflexivity | lra].
Qed.

Lemma clip_spec (x : float) (thr : Q) :
  exists q, clip x thr = Fin q /\
            (x = NaN -> q = 0) /\
            (nonneg_or_nan x -> 0 <= thr -> 0 <= q <= 1).
Proof.
  destruct (clip_finite x thr) as (q & Hq). exists q. split; [exact Hq |]. split.
  - intros ->. rewrite clip_nan in Hq. congruence.
  - intros Hx Hthr. destruct (clip_unit x Hx Hthr) as (q' & Hq' & Hu).
    rewrite Hq in Hq'. injection Hq' as ->. exact Hu.
Qed.

(** A cell of the z-score detector surface: finite, 0 where the z-score
    is NaN, and in [0, 1] when the thresholds are not negative. *)
Lemma zscore_detector_cell (config : ProcessingConfig) (z_score : grid)
    (i j : nat) (v : float) :
  cell z_score i j = Some v ->
  exists q,
    cell (_run_zscore_detector config z_score) i j = Some (Fin q) /\
    (v = NaN -> q = 0) /\
    (0 <= or_default (mad_threshold (zscore_config config)) (35 # 10) ->
     0 <= or_default (threshold (zscore_config config)) 3 ->
     0 <= q <= 1).
Proof.
  intros Hc. unfold _run_zscore_detector.
  destruct (or_default (use_mad (zscore_config config)) true).
  - destruct (Np.drop_nan (concat z_score)) as [| v0 vt] eqn:Ev.
    + unfold zeros_like. rewrite cell_gmap, Hc. simpl.
      exists 0. split; [reflexivity |]. split; [reflexivity | intros; lra].
    + rewrite <- Ev. clear Ev v0 vt.
      set (median := Np.median (Np.drop_nan (concat z_score))).
      set (mad := Np.median (map (fun v => abs (sub v median))
                                 (Np.drop_nan (concat z_score)))).
      set (thr := or_default (mad_threshold (zscore_config config)) (35 # 10)).
      destruct (ltb mad (Fin (1 # 10000000000))) eqn:Em;
        rewrite !cell_gmap, Hc; cbn [option_map].
      * change (nan_to_num 0 None None
                  (minimum (div (abs (sub v median)) (Fin thr)) (Fin 1)))
          with (clip (abs (sub v median)) thr).
        destruct (clip_spec (abs (sub v median)) thr) as (q & Hq & Hn & Hu).
        exists q. split; [now rewrite Hq |]. split.
        -- intros ->. now apply Hn.
        -- intros H1 _. apply Hu; [apply abs_nonneg | exact H1].
      * change (nan_to_num 0 None None
                  (minimum (div (div (abs (sub v median)) mad) (Fin thr)) (Fin 1)))
          with (clip (div (abs (sub v median)) mad) thr).
        destruct (clip_spec (div (abs (sub v median)) mad) thr) as (q & Hq & Hn & Hu).
        exists q. split; [now rewrite Hq |]. split.
        -- intros ->. now apply Hn.
        -- intros H1 _. apply Hu; [| exact H1].
           apply div_nonneg; [apply abs_nonneg | exact Em].
  - set (thr := or_default (threshold (zscore_config config)) 3).
    rewrite !cell_gmap, Hc. cbn [option_map].
    change (nan_to_num 0 None None (minimum (div (abs v) (Fin thr)) (Fin 1)))
      with (clip (abs v) thr).
    destruct (clip_spec (abs v) thr) as (q & Hq & Hn & Hu).
    exists q. split; [now rewrite Hq |]. split.
    + intros ->. now apply Hn.
    + intros _ H2. apply Hu; [apply abs_nonneg | exact H2].
Qed.

(** Scattering scores into the valid cells leaves 0 elsewhere and puts
    nothing but scores (or 0) anywhere. *)
Lemma scatter_row_cell (m : list bool) :
  forall scores r rest,
    scatter_row m scores = (r, rest) ->
    (forall v, In v rest -> In v scores) /\
    (forall j b, nth_error m j = Some b ->
       exists v, nth_error r j = Some v /\
                 (b = false -> v = Fin 0) /\ (v = Fin 0 \/ In v scores)).
Proof.
  induction m as [| b0 m IH]; intros scores r rest; simpl.
  - intros H. injection H as <- <-. split; [auto |]. intros [| j] b; discriminate.
  - destruct b0.
    + destruct scores as [| s ss].
      * destruct (scatter_row m []) as [r' rest'] eqn:E.
        intros H. injection H as <- <-. destruct (IH _ _ _ E) as [Hrest Hcell].
        split; [exact Hrest |]. intros [| j] b Hb; simpl in *.
        -- exists (Fin 0). auto.
        -- apply Hcell, Hb.
      * destruct (scatter_row m ss) as [r' rest'] eqn:E.
        intros H. injection H as <- <-. destruct (IH _ _ _ E) as [Hrest Hcell].
        split; [intros v Hv; right; now apply Hrest |].
        intros [| j] b Hb; simpl in *.
        -- injection Hb as <-. exists s. split; [reflexivity |].
           split; [discriminate | right; now left].
        -- destruct (Hcell j b Hb) as (v & Hv & Hf & Hs).
           exists v. split; [exact Hv |]. split; [exact Hf |].
           destruct Hs; [now left | right; now right].
    + destruct (scatter_row m scores) as [r' rest'] eqn:E.
      intros H. injection H as <- <-. destruct (IH _ _ _ E) as [Hrest Hcell].
      split; [exact Hrest |]. intros [| j] b Hb; simpl in *.
      * exists (Fin 0). auto.
      * apply Hcell, Hb.
Qed.

Lemma scatter_cell (m : mask) :
  forall scores i j b,
    cell m i j = Some b ->
    exists v, cell (scatter m scores) i j = Some v /\
              (b = false -> v = Fin 0) /\ (v = Fin 0 \/ In v scores).
Proof.
  induction m as [| row m IH]; intros scores i j b; [destruct i; discriminate |].
  simpl scatter. destruct (scatter_row row scores) as [r rest] eqn:E.
  destruct (scatter_row_cell _ _ E) as [Hrest Hcell].
  destruct i as [| i]; unfold cell; simpl.
  - apply Hcell.
  - intros Hb. destruct (IH rest i j b Hb) as (v & Hv & Hf & Hs).
    exists v. split; [exact Hv |]. split; [exact Hf |].
    destruct Hs; [now left | right; now apply Hrest].
Qed.

Lemma min_list_Fin (t : list Q) :
  forall x, exists m,
    Np.min_list (Fin x) (map Fin t) = Fin m /\ m <= x /\
    forall q, In q t -> m <= q.
Proof.
  unfold Np.min_list. induction t as [| y t IH]; intros x; simpl.
  - exists x. split; [reflexivity |]. split; [lra | intros q []].
  - destruct (Qltb y x) eqn:E.
    + apply Qltb_lt in E. destruct (IH y) as (m & Hm & Hle & Hall).
      exists m. split; [exact Hm |]. split; [lra |].
      intros q [<- | Hq]; [exact Hle | now apply Hall].
    + apply Qltb_ge in E. destruct (IH x) as (m & Hm & Hle & Hall).
      exists m. split; [exact Hm |]. split; [exact Hle |].
      intros q [<- | Hq]; [lra | now apply Hall].
Qed.

Lemma max_list_Fin (t : list Q) :
  forall x, exists m,
    Np.max_list (Fin x) (map Fin t) = Fin m /\ x <= m /\
    forall q, In q t -> q <= m.
Proof.
  unfold Np.max_list. induction t as [| y t IH]; intros x; simpl.
  - exists x. split; [reflexivity |]. split; [lra | intros q []].
  - destruct (Qltb x y) eqn:E.
    + apply Qltb_lt in E. destruct (IH y) as (m & Hm & Hle & Hall).
      exists m. split; [exact Hm |]. split; [lra |].
      intros q [<- | Hq]; [exact Hle | now apply Hall].
    + apply Qltb_ge in E. destruct (IH x) as (m & Hm & Hle & Hall).
      exists m. split; [exact Hm |]. split; [exact Hle |].
      intros q [<- | Hq]; [lra | now apply Hall].
Qed.

Lemma existsb_isnan_Fin (l : list Q) : existsb isnan (map Fin l) = false.
Proof. induction l; simpl; auto. Qed.

(** Min-max normalisation of finite scores gives values in [0, 1]. *)
Lemma normalised_unit (l : list Q) (lo hi : float) :
  Np.amin (map Fin l) = Ok lo -> Np.amax (map Fin l) = Ok hi ->
  forall v,
    In v (map (fun s => div (sub s lo)
                            (add (sub hi lo) (Fin (1 # 10000000000))))
              (map Fin l)) ->
    exists q, v = Fin q /\ 0 <= q <= 1.
Proof.
  destruct l as [| x t]; [discriminate |].
  unfold Np.amin, Np.amax.
  change (map Fin (x :: t)) with (Fin x :: map Fin t).
  change (existsb isnan (Fin x :: map Fin t)) with (existsb isnan (map Fin (x :: t))).
  rewrite existsb_isnan_Fin.
  destruct (min_list_Fin t x) as (m & Hm & Hmx & Hmall).
  destruct (max_list_Fin t x) as (M & HM & HMx & HMall).
  rewrite Hm, HM. intros Hlo Hhi. injection Hlo as <-. injection Hhi as <-.
  intros v Hv. apply in_map_iff in Hv. destruct Hv as (s & <- & Hs).
  assert (Hq : exists q, s = Fin q /\ m <= q <= M).
  { destruct Hs as [<- | Hs]; [exists x; split; [reflexivity | lra] |].
    apply in_map_iff in Hs. destruct Hs as (q & <- & Hq).
    exists q. split; [reflexivity |]. split; [now apply Hmall | now apply HMall]. }
  destruct Hq as (q & -> & Hq). simpl.
  rewrite Qsgn_pos by lra.
  eexists. split; [reflexivity |]. split.
  - apply Qle_shift_div_l; lra.
  - apply Qle_shift_div_r; lra.
Qed.

Lemma map_neg_Fin (l : list Q) : map neg (map Fin l) = map Fin (map Qopp l).
Proof. now rewrite !map_map. Qed.

(** A cell of the isolation-forest surface: finite, in [0, 1], and 0 at
    the cells where the data is NaN. *)
Lemma isolation_forest_cell (config : ProcessingConfig) (model : IsolationForest)
    (data : grid) (features : dict grid) (surface : grid) (i j : nat) (d : float) :
  _run_isolation_forest config model data features = Ok surface ->
  cell data i j = Some d ->
  exists q, cell surface i j = Some (Fin q) /\ 0 <= q <= 1 /\
            (isnan d = true -> q = 0).
Proof.
  unfold _run_isolation_forest. intros Hrun Hc.
  match type of Hrun with
  | match ?fl with _ => _ end = _ => destruct fl as [| f0 ft] eqn:Efl
  end.
  - injection Hrun as <-. unfold zeros_like. rewrite cell_gmap, Hc. simpl.
    exists 0. split; [reflexivity |]. split; [lra | reflexivity].
  - rewrite <- Efl in Hrun. clear Efl f0 ft.
    unfold fit_decision_function in Hrun.
    match type of Hrun with
    | context [model ?p ?X] => set (raw := model p X) in *
    end.
    match type of Hrun with
    | bind (match ?X with _ => _ end) _ = _ => destruct X; [discriminate |]
    end.
    simpl bind in Hrun. rewrite map_neg_Fin in Hrun.
    destruct (Np.amin (map Fin (map Qopp raw))) as [lo |] eqn:Elo; [| discriminate].
    destruct (Np.amax (map Fin (map Qopp raw))) as [hi |] eqn:Ehi; [| discriminate].
    simpl bind in Hrun. injection Hrun as <-.
    assert (Hm : cell (valid_mask data) i j = Some (negb (isnan d)))
      by (unfold valid_mask; now rewrite cell_gmap, Hc).
    destruct (scatter_cell _
                (map (fun s => div (sub s lo)
                                   (add (sub hi lo) (Fin (1 # 10000000000))))
                     (map Fin (map Qopp raw))) _ _ Hm)
      as (v & Hv & Hf & Hs).
    destruct Hs as [-> | Hs].
    + exists 0. split; [exact Hv |]. split; [lra | reflexivity].
    + destruct (normalised_unit _ Elo Ehi _ Hs) as (q & -> & Hq).
      exists q. split; [exact Hv |]. split; [exact Hq |].
      intros Hn. rewrite Hn in Hf. specialize (Hf eq_refl). congruence.
Qed.

(** The combination loop, cell by cell. *)
Lemma accumulate_fold_cell (weights : dict Q) (drs : dict grid) :
  forall st i j,
    cell (fst (fold_left (accumulate weights) drs st)) i j
    = option_map (fun a => fold_left (accumulate_cell weights i j) drs a)
                 (cell (fst st) i j).
Proof.
  induction drs as [| item drs IH]; intros st i j; simpl fold_left.
  - simpl. now destruct (cell (fst st) i j).
  - rewrite IH. unfold accumulate. simpl fst. rewrite cell_gmapi.
    destruct (cell (fst st) i j); reflexivity.
Qed.

Lemma accumulate_fold_total (weights : dict Q) (drs : dict grid) :
  forall st,
    snd (fold_left (accumulate weights) drs st)
    = fold_left (fun t item => t + weight_of weights item) drs (snd st).
Proof.
  induction drs as [| item drs IH]; intros st; simpl fold_left; [reflexivity |].
  now rewrite IH.
Qed.

(** Over finite surface values the loop computes a weighted sum. *)
Lemma accumulate_cell_sum (weights : dict Q) (i j : nat) (drs : dict grid) :
  (forall item, In item drs ->
     exists q, get_const NaN (snd item) (Z.of_nat i) (Z.of_nat j) = Fin q) ->
  forall a,
    fold_left (accumulate_cell weights i j) drs (Fin a)
    = Fin (fold_left (fun s item => s + weight_of weights item * surface_value i j item)
                     drs a).
Proof.
  induction drs as [| item drs IH]; intros Hfin a; cbn [fold_left]; [reflexivity |].
  destruct (Hfin item (or_introl eq_refl)) as (q & Hq).
  assert (E : accumulate_cell weights i j (Fin a) item
              = Fin (a + weight_of weights item * surface_value i j item))
    by (unfold accumulate_cell, surface_value; now rewrite Hq).
  rewrite E. apply IH. intros it Hit. apply Hfin. now right.
Qed.

Lemma weighted_sum_zero (weights : dict Q) (i j : nat) (drs : dict grid) :
  (forall item, In item drs -> surface_value i j item = 0) ->
  forall a,
    fold_left (fun s item => s + weight_of weights item * surface_value i j item)
              drs a == a.
Proof.
  induction drs as [| item drs IH]; intros Hz a; cbn [fold_left]; [reflexivity |].
  rewrite IH by (intros it Hit; apply Hz; now right).
  rewrite (Hz item) by now left. lra.
Qed.

Lemma weighted_sum_bounds (weights : dict Q) (i j : nat) (drs : dict grid) :
  (forall item, In item drs ->
     0 <= weight_of weights item /\ 0 <= surface_value i j item <= 1) ->
  forall a tot,
    let s := fold_left (fun s item => s + weight_of weights item * surface_value i j item)
                       drs a in
    let total := fold_left (fun t item => t + weight_of weights item) drs tot in
    a <= s /\ s - a <= total - tot.
Proof.
  induction drs as [| item drs IH]; intros Hb a tot; cbn [fold_left].
  - cbv zeta. lra.
  - destruct (Hb item (or_introl eq_refl)) as (Hw & Hq).
    destruct (IH (fun it Hit => Hb it (or_intror Hit))
                 (a + weight_of weights item * surface_value i j item)
                 (tot + weight_of weights item)) as [H1 H2].
    cbv zeta in *.
    set (w := weight_of weights item) in *.
    set (q := surface_value i j item) in *.
    assert (0 <= w * q) by nra.
    assert (w * q <= w) by nra.
    split; lra.
Qed.

(** The combined score of a cell over finite detector values. *)
Lemma combine_scores_cell (config : ProcessingConfig) (drs : dict grid)
    (data : grid) (i j : nat) (d : float) :
  cell data i j = Some d ->
  (forall item, In item drs -> exists q, cell (snd item) i j = Some (Fin q)) ->
  let weights := or_default (scoring_weights config) default_weights in
  let s := fold_left (fun s item => s + weight_of weights item * surface_value i j item)
                     drs 0 in
  let total := fold_left (fun t item => t + weight_of weights item) drs 0 in
  cell (_combine_scores config drs data) i j
  = Some (if Qltb 0 total then Fin (s / total) else Fin s).
Proof.
  intros Hc Hfin weights s total. unfold _combine_scores.
  rewrite accumulate_fold_total. simpl snd. fold weights. fold total.
  assert (Hacc : cell (fst (fold_left (accumulate weights) drs (zeros_like data, 0))) i j
                 = Some (Fin s)).
  { rewrite accumulate_fold_cell. simpl fst. unfold zeros_like.
    rewrite cell_gmap, Hc. simpl option_map. f_equal.
    apply accumulate_cell_sum. intros item Hitem.
    destruct (Hfin item Hitem) as (q & Hq). exists q.
    now rewrite get_const_cell, Hq. }
  destruct (Qltb 0 total) eqn:Et.
  - rewrite cell_gmap, Hacc. simpl. apply Qltb_lt in Et.
    now rewrite Qsgn_pos.
  - exact Hacc.
Qed.

Lemma set_nan_where_invalid_cell (data out : grid) (i j : nat) (d v : float) :
  cell data i j = Some d -> cell out i j = Some v ->
  cell (FeatureExtractor.set_nan_where_invalid data out) i j
  = Some (if isnan d then NaN else v).
Proof.
  intros Hd Hv. unfold FeatureExtractor.set_nan_where_invalid.
  now rewrite cell_gmapi, Hv, get_const_cell, Hd.
Qed.

Lemma local_zscore_cell (config : ProcessingConfig) (data : grid)
    (i j : nat) (d : float) :
  cell data i j = Some d ->
  exists v, cell (FeatureExtractor._compute_local_zscore config data) i j = Some v /\
            (isnan d = true -> v = NaN).
Proof.
  intros Hd. unfold FeatureExtractor._compute_local_zscore. cbv zeta.
  match goal with
  | |- context [FeatureExtractor.set_nan_where_invalid data ?out] =>
      assert (Hout : exists v, cell out i j = Some v)
        by (rewrite cell_gmapi, Hd; simpl; eauto)
  end.
  destruct Hout as (v & Hv).
  eexists. split; [apply (@set_nan_where_invalid_cell _ _ _ _ _ _ Hd Hv) |].
  now intros ->.
Qed.

(** The detector surfaces of a run, at one cell of the data. *)
Lemma detect_surfaces (config : ProcessingConfig) (model : IsolationForest)
    (data : grid) (r : DetectionResult) (i j : nat) (d : float) :
  detect config model data (FeatureExtractor.extract_features config data) = Ok r ->
  cell data i j = Some d ->
  score_grid r = _combine_scores config (detector_results r) data /\
  forall item, In item (detector_results r) ->
    exists q, cell (snd item) i j = Some (Fin q) /\
              (nonneg_thresholds config -> 0 <= q <= 1) /\
              (isnan d = true -> q = 0).
Proof.
  unfold detect. intros Hdet Hc.
  change (lookup "z_score" (FeatureExtractor.extract_features config data))
    with (Some (FeatureExtractor._compute_local_zscore config data)) in Hdet.
  match type of Hdet with
  | bind ?m1 _ = _ => destruct m1 as [r1 |] eqn:E1; [| discriminate]
  end.
  simpl bind in Hdet.
  match type of Hdet with
  | bind ?m2 _ = _ => destruct m2 as [r2 |] eqn:E2; [| discriminate]
  end.
  simpl bind in Hdet. injection Hdet as <-. simpl score_grid. simpl detector_results.
  split; [reflexivity |].
  intros item Hitem. apply in_app_or in Hitem. destruct Hitem as [Hitem | Hitem].
  - destruct (or_default (isolation_forest_enabled config) true).
    + destruct (_run_isolation_forest config model data _) as [s |] eqn:Es;
        [| discriminate].
      simpl in E1. injection E1 as <-. destruct Hitem as [<- | []]. simpl snd.
      destruct (@isolation_forest_cell _ _ _ _ _ _ _ _ Es Hc) as (q & Hq & Hu & Hz).
      exists q. auto.
    + injection E1 as <-. destruct Hitem.
  - destruct (or_default (zscore_enabled config) true).
    + injection E2 as <-. destruct Hitem as [<- | []]. simpl snd.
      destruct (@local_zscore_cell config _ _ _ _ Hc) as (v & Hv & Hn).
      destruct (@zscore_detector_cell config _ _ _ _ Hv) as (q & Hq & Hz & Hu).
      exists q. split; [exact Hq |]. split.
      * intros [H1 H2]. now apply Hu.
      * intros Hd. apply Hz, Hn, Hd.
    + injection E2 as <-. destruct Hitem.
Qed.

Lemma weight_of_nonneg (config : ProcessingConfig) (item : string * grid) :
  nonneg_weights config ->
  0 <= weight_of (or_default (scoring_weights config) default_weights) item.
Proof.
  intros Hw. unfold weight_of, dict_get.
  destruct (lookup (fst item) _) as [w |] eqn:E; [now apply (Hw _ _ E) | lra].
Qed.

(** C10. Every cell of the combined score surface that [detect] returns
    is a finite number, and it is 0 at every cell where the input grid is
    NaN. *)
Theorem combined_score_finite_and_zero_on_nodata
    (config : ProcessingConfig) (model : IsolationForest)
    (data : grid) (r : DetectionResult) (i j : nat) (d : float) :
  detect config model data (FeatureExtractor.extract_features config data) = Ok r ->
  cell data i j = Some d ->
  exists q, cell (score_grid r) i j = Some (Fin q) /\
            (isnan d = true -> q == 0).
Proof.
  intros Hdet Hc. destruct (@detect_surfaces _ _ _ _ _ _ _ Hdet Hc) as [-> Hitems].
  rewrite (@combine_scores_cell config _ _ _ _ _ Hc)
    by (intros item Hitem; destruct (Hitems item Hitem) as (q & Hq & _); eauto).
  cbv zeta.
  set (weights := or_default (scoring_weights config) default_weights).
  set (s := (fold_left (fun s item => s + weight_of weights item * surface_value i j item)
                     (detector_results r) 0)).
  set (total := (fold_left (fun t item => t + weight_of weights item) (detector_results r) 0)).
  assert (Hzero : isnan d = true -> s == 0).
  { intros Hd. apply weighted_sum_zero. intros item Hitem.
    destruct (Hitems item Hitem) as (q & Hq & _ & Hz).
    unfold surface_value. rewrite get_const_cell, Hq. now apply Hz. }
  destruct (Qltb 0 total) eqn:Et.
  - exists (s / total). split; [reflexivity |].
    intros Hd. rewrite (Hzero Hd). apply Qltb_lt in Et. field. lra.
  - exists s. split; [reflexivity | exact Hzero].
Qed.

(** C2, amended. When no configured weight and no z-score threshold is
    negative, every cell of the combined score surface (so every valid
    cell) lies in [0, 1]. *)
Theorem combined_score_in_unit_interval
    (config : ProcessingConfig) (model : IsolationForest)
    (data : grid) (r : DetectionResult) (i j : nat) (d : float) :
  nonneg_weights config ->
  nonneg_thresholds config ->
  detect config model data (FeatureExtractor.extract_features config data) = Ok r ->
  cell data i j = Some d ->
  exists q, cell (score_grid r) i j = Some (Fin q) /\ 0 <= q <= 1.
Proof.
  intros Hw Ht Hdet Hc. destruct (@detect_surfaces _ _ _ _ _ _ _ Hdet Hc) as [-> Hitems].
  rewrite (@combine_scores_cell config _ _ _ _ _ Hc)
    by (intros item Hitem; destruct (Hitems item Hitem) as (q & Hq & _); eauto).
  cbv zeta.
  set (weights := or_default (scoring_weights config) default_weights).
  destruct (@weighted_sum_bounds weights i j (detector_results r)) with (a := 0) (tot := 0)
    as [H1 H2].
  { intros item Hitem. split; [now apply weight_of_nonneg |].
    destruct (Hitems item Hitem) as (q & Hq & Hu & _).
    unfold surface_value. rewrite get_const_cell, Hq. now apply Hu. }
  set (s := (fold_left (fun s item => s + weight_of weights item * surface_value i j item)
                     (detector_results r) 0)) in *.
  set (total := (fold_left (fun t item => t + weight_of weights item) (detector_results r) 0)) in *.
  destruct (Qltb 0 total) eqn:Et.
  - apply Qltb_lt in Et. exists (s / total). split; [reflexivity |]. split.
    + apply Qle_shift_div_l; lra.
    + apply Qle_shift_div_r; lra.
  - apply Qltb_ge in Et. exists s. split; [reflexivity | lra].
Qed.

End DetectorFacts.

(* ------------------------------------------------------------------ *)
(** ** The combined score on concrete grids *)

Lemma holed_detection_eq :
  AnomalyDetector.detect Config.empty Sample.forest Sample.holed
    (FeatureExtractor.extract_features Config.empty Sample.holed)
  = Ok Sample.holed_detection.
Proof. reflexivity. Qed.

Lemma default_weights_nonneg : Props.nonneg_weights Config.empty.
Proof.
  intros k w. simpl.
  repeat (destruct (String.eqb k _);
          [intros H; injection H as <-; unfold Qle; simpl; lia |]).
  discriminate.
Qed.

Lemma default_thresholds_nonneg : Props.nonneg_thresholds Config.empty.
Proof. split; unfold Qle; simpl; lia. Qed.

(** With weights 1.0 and -0.5 (their sum is positive), and with a
    z-score threshold of -3, the combined score of the 3x3 grid
    [Sample.holed] leaves [0, 1] at valid cells: above 1 at (2,2) and
    below 0 at (0,1) in the first run, below 0 at (0,1) in the second. *)
Lemma combined_score_leaves_unit_interval :
  (AnomalyDetector.detect Sample.signed_weights Sample.forest Sample.holed
     (FeatureExtractor.extract_features Sample.signed_weights Sample.holed)
   = Ok Sample.signed_detection /\
   option_map isnan (Grid.cell Sample.holed 2 2) = Some false /\
   option_map (ltb (Fin 1))
              (Grid.cell (AnomalyDetector.score_grid Sample.signed_detection) 2 2)
   = Some true /\
   option_map isnan (Grid.cell Sample.holed 0 1) = Some false /\
   option_map (fun v => ltb v (Fin 0))
              (Grid.cell (AnomalyDetector.score_grid Sample.signed_detection) 0 1)
   = Some true) /\
  (AnomalyDetector.detect Sample.negative_threshold Sample.forest Sample.holed
     (FeatureExtractor.extract_features Sample.negative_threshold Sample.holed)
   = Ok Sample.negative_detection /\
   option_map (fun v => ltb v (Fin 0))
              (Grid.cell (AnomalyDetector.score_grid Sample.negative_detection) 0 1)
   = Some true).
Proof.
  split; [split; [| split; [| split; [| split]]] | split];
    vm_compute; reflexivity.
Qed.

Lemma combined_score_in_unit_interval_witness :
  Props.nonneg_weights Config.empty /\
  Props.nonneg_thresholds Config.empty /\
  AnomalyDetector.detect Config.empty Sample.forest Sample.holed
    (FeatureExtractor.extract_features Config.empty Sample.holed)
  = Ok Sample.holed_detection /\
  Grid.cell Sample.holed 2 2 = Some (Fin 10) /\
  exists q,
    Grid.cell (AnomalyDetector.score_grid Sample.holed_detection) 2 2 = Some (Fin q) /\
    0 <= q <= 1.
Proof.
  split; [exact default_weights_nonneg |].
  split; [exact default_thresholds_nonneg |].
  split; [exact holed_detection_eq |].
  split; [reflexivity |].
  exact (@combined_score_in_unit_interval Config.empty Sample.forest Sample.holed
           Sample.holed_detection 2 2 (Fin 10)
           default_weights_nonneg default_thresholds_nonneg
           holed_detection_eq eq_refl).
Defined.

Lemma combined_score_finite_and_zero_on_nodata_witness :
  AnomalyDetector.detect Config.empty Sample.forest Sample.holed
    (FeatureExtractor.extract_features Config.empty Sample.holed)
  = Ok Sample.holed_detection /\
  Grid.cell Sample.holed 1 1 = Some NaN /\
  exists q,
    Grid.cell (AnomalyDetector.score_grid Sample.holed_detection) 1 1 = Some (Fin q) /\
    (isnan NaN = true -> q == 0).
Proof.
  split; [exact holed_detection_eq |].
  split; [reflexivity |].
  exact (@combined_score_finite_and_zero_on_nodata Config.empty Sample.forest
           Sample.holed Sample.holed_detection 1 1 NaN
           holed_detection_eq eq_refl).
Defined.
(* ------------------------------------------------------------------ *)
(** ** An all-nodata grid *)

Section AllNodata.

Import Grid Config AnomalyDetector.

Lemma select_valid_all_nan (data feature : grid) :
  (forall v, In v (concat data) -> isnan v = true) ->
  select_valid data feature = [].
Proof.
  intros Hnan. unfold select_valid.
  rewrite filter_none; [reflexivity |].
  intros [d v] Hin. apply in_combine_l in Hin. simpl.
  now rewrite (Hnan d Hin).
Qed.

Lemma drop_nan_all_nan (l : list float) :
  (forall v, In v l -> isnan v = true) -> Np.drop_nan l = [].
Proof.
  intros Hnan. unfold Np.drop_nan. apply filter_none.
  intros v Hv. now rewrite (Hnan v Hv).
Qed.

(** On a grid without a valid cell the statistics are the undefined
    record; no exception is raised. *)
Lemma compute_statistics_all_nan (data : grid) :
  (forall v, In v (concat data) -> isnan v = true) ->
  exists nodata total,
    RasterProcessor.compute_statistics data
    = Ok {| RasterProcessor.z_min := None; RasterProcessor.z_max := None;
            RasterProcessor.z_mean := None; RasterProcessor.z_std := None;
            RasterProcessor.z_median := None; RasterProcessor.valid_count := 0;
            RasterProcessor.nodata_count := nodata;
            RasterProcessor.total_count := total |}.
Proof.
  intros Hnan. unfold RasterProcessor.compute_statistics.
  rewrite (@drop_nan_all_nan _ Hnan). eauto.
Qed.

(** With the isolation forest enabled, the sample matrix of a grid
    without a valid cell has no rows and fitting raises ValueError. *)
Lemma run_isolation_forest_all_nan (config : ProcessingConfig)
    (model : IsolationForest) (data : grid) :
  (forall v, In v (concat data) -> isnan v = true) ->
  _run_isolation_forest config model data
    (FeatureExtractor.extract_features config data) = Raise ValueError.
Proof.
  intros Hnan. unfold _run_isolation_forest, FeatureExtractor.extract_features.
  cbn [flat_map lookup String.eqb Ascii.eqb Bool.eqb app fst snd].
  rewrite !(fun feature => @select_valid_all_nan data feature Hnan). reflexivity.
Qed.

Lemma detect_all_nan (config : ProcessingConfig) (model : IsolationForest)
    (data : grid) :
  or_default (isolation_forest_enabled config) true = true ->
  (forall v, In v (concat data) -> isnan v = true) ->
  detect config model data (FeatureExtractor.extract_features config data)
  = Raise ValueError.
Proof.
  intros Hen Hnan. unfold detect. rewrite Hen.
  now rewrite (@run_isolation_forest_all_nan config model data Hnan).
Qed.

End AllNodata.

(** C3, at the 2x2 grid that is NaN everywhere, with the default
    configuration: the statistics are the undefined record, but detection
    raises ValueError for every forest model, and so does the analysis;
    no (empty) anomaly list is returned. *)
Theorem all_nodata_grid_raises :
  RasterProcessor.compute_statistics Sample.all_nan
  = Ok {| RasterProcessor.z_min := None; RasterProcessor.z_max := None;
          RasterProcessor.z_mean := None; RasterProcessor.z_std := None;
          RasterProcessor.z_median := None; RasterProcessor.valid_count := 0;
          RasterProcessor.nodata_count := 4; RasterProcessor.total_count := 4 |} /\
  (forall model,
      AnomalyDetector.detect Config.empty model Sample.all_nan
        (FeatureExtractor.extract_features Config.empty Sample.all_nan)
      = Raise ValueError) /\
  (forall model backend entropy metadata rid w,
      MLPipeline.run_analysis Config.empty model backend entropy
        Sample.all_nan metadata rid w = Raise ValueError).
Proof.
  assert (Hnan : forall v, In v (concat Sample.all_nan) -> isnan v = true).
  { simpl. intuition (subst; reflexivity). }
  split; [vm_compute; reflexivity |]. split.
  - intros model. now apply detect_all_nan.
  - intros model backend entropy metadata rid w. unfold MLPipeline.run_analysis.
    now rewrite (@detect_all_nan Config.empty model Sample.all_nan eq_refl Hnan).
Qed.

(* ------------------------------------------------------------------ *)
(** ** Reproducibility of a run *)

Section Reproducibility.

Import Grid Config Entities Morphology Polygonizer Props.

Variable config : ProcessingConfig.
Variable backend : VectorBackend.

Local Abbreviation anomaly := (Anomaly (geometry_t backend)) (only parsing).

(** The loop body decides and builds the same anomaly, up to the fresh
    values, whatever the entropy and the calls made so far. *)
Lemma build_anomaly_erase (e1 e2 : Entropy) (w1 w2 : World)
    score_grid metadata detector_results data config_thresholds transformer
    labeled label_id sl :
  match build_anomaly config backend e1 score_grid metadata detector_results data
                      config_thresholds transformer labeled label_id sl w1,
        build_anomaly config backend e2 score_grid metadata detector_results data
                      config_thresholds transformer labeled label_id sl w2 with
  | Some (x1, _), Some (x2, _) => erase_fresh x1 = erase_fresh x2
  | None, None => True
  | _, _ => False
  end.
Proof.
  unfold build_anomaly. destruct sl as [[[r0 r1] c0] c1]. cbv zeta.
  match goal with
  | |- context [(?a <? ?b)%Z] => destruct (a <? b)%Z; [exact I |]
  end.
  match goal with
  | |- context [shapes backend ?m ?t] => destruct (shapes backend m t); [| exact I]
  end.
  reflexivity.
Qed.

Lemma scan_erase (e1 e2 : Entropy)
    score_grid metadata detector_results data config_thresholds transformer labeled
    (objects : list (nat * option (nat * nat * nat * nat))) :
  forall (acc1 acc2 : list anomaly) (w1 w2 : World),
    map erase_fresh acc1 = map erase_fresh acc2 ->
    map erase_fresh
        (fst (scan backend
                (build_anomaly config backend e1 score_grid metadata detector_results
                               data config_thresholds transformer labeled)
                objects acc1 w1))
    = map erase_fresh
          (fst (scan backend
                  (build_anomaly config backend e2 score_grid metadata detector_results
                                 data config_thresholds transformer labeled)
                  objects acc2 w2)).
Proof.
  induction objects as [| [label_id obj_slice] rest IH]; intros acc1 acc2 w1 w2 Hacc.
  - exact Hacc.
  - rewrite !scan_cons.
    destruct (max_scan_count <? label_id)%nat; [exact Hacc |].
    destruct obj_slice as [sl |]; [| now apply IH].
    assert (Hlen : List.length acc1 = List.length acc2).
    { rewrite <- (length_map erase_fresh acc1), Hacc. apply length_map. }
    rewrite Hlen.
    destruct (max_anomalies <=? List.length acc2)%nat; [exact Hacc |].
    pose proof (build_anomaly_erase e1 e2 w1 w2 score_grid metadata detector_results
                  data config_thresholds transformer labeled label_id sl) as Hb.
    destruct (build_anomaly config backend e1 _ _ _ _ _ _ _ _ _ w1) as [[x1 w1'] |];
      destruct (build_anomaly config backend e2 _ _ _ _ _ _ _ _ _ w2) as [[x2 w2'] |];
      try contradiction.
    + apply IH. rewrite !map_app. simpl. now rewrite Hacc, Hb.
    + now apply IH.
Qed.

Lemma insert_desc_erase (x : anomaly) (l : list anomaly) :
  map erase_fresh (insert_desc backend x l)
  = insert_desc backend (erase_fresh x) (map erase_fresh l).
Proof.
  induction l as [| y t IH]; simpl; [reflexivity |].
  destruct (ltb (qc_priority x) (qc_priority y)); simpl; [now rewrite IH | reflexivity].
Qed.

Lemma sort_by_priority_erase (l : list anomaly) :
  map erase_fresh (sort_by_priority backend l)
  = sort_by_priority backend (map erase_fresh l).
Proof.
  unfold sort_by_priority. induction l as [| x t IH]; simpl; [reflexivity |].
  now rewrite insert_desc_erase, IH.
Qed.

Lemma polygonize_erase (e1 e2 : Entropy) (w1 w2 : World)
    score_grid metadata detector_results data config_thresholds :
  map erase_fresh
      (fst (polygonize config backend e1 score_grid metadata detector_results data
                       config_thresholds w1))
  = map erase_fresh
        (fst (polygonize config backend e2 score_grid metadata detector_results data
                         config_thresholds w2)).
Proof.
  unfold polygonize.
  destruct (label (anomaly_mask config score_grid)) as [labeled n].
  destruct n as [| n]; [reflexivity |].
  match goal with
  | |- context [scan backend (build_anomaly config backend e1 ?sg ?md ?dr ?da ?ct ?tr ?lb)
                     ?objs [] w1] =>
      pose proof (@scan_erase e1 e2 sg md dr da ct tr lb objs [] [] w1 w2 eq_refl) as Hs;
      destruct (scan backend (build_anomaly config backend e1 sg md dr da ct tr lb)
                     objs [] w1) as [a1 w1'];
      destruct (scan backend (build_anomaly config backend e2 sg md dr da ct tr lb)
                     objs [] w2) as [a2 w2']
  end.
  simpl fst in *. now rewrite !sort_by_priority_erase, Hs.
Qed.

(** The returned list never steps up in priority. *)
Lemma insert_desc_sorted (x : anomaly) (l : list anomaly) :
  descending (map (@qc_priority _) l) ->
  descending (map (@qc_priority _) (insert_desc backend x l)).
Proof.
  unfold descending. induction l as [| y t IH]; simpl; intros Hs.
  - repeat constructor.
  - destruct (ltb (qc_priority x) (qc_priority y)) eqn:E; simpl.
    + inversion Hs as [| ? ? Ht Hhd]; subst. constructor; [now apply IH |].
      destruct t as [| z t]; simpl.
      * constructor. destruct (qc_priority x), (qc_priority y); simpl in *;
          try congruence.
        apply Qltb_lt in E. apply Qltb_ge. lra.
      * destruct (ltb (qc_priority x) (qc_priority z)); simpl.
        -- inversion Hhd; subst. now constructor.
        -- constructor. destruct (qc_priority x), (qc_priority y); simpl in *;
             try congruence.
           apply Qltb_lt in E. apply Qltb_ge. lra.
    + constructor; [exact Hs |]. now constructor.
Qed.

Lemma sort_by_priority_sorted (l : list anomaly) :
  descending (map (@qc_priority _) (sort_by_priority backend l)).
Proof.
  unfold sort_by_priority. induction l as [| x t IH]; simpl.
  - constructor.
  - now apply insert_desc_sorted.
Qed.

Lemma polygonize_sorted (e : Entropy) (w : World)
    score_grid metadata detector_results data config_thresholds :
  descending
    (map (@qc_priority _)
         (fst (polygonize config backend e score_grid metadata detector_results data
                          config_thresholds w))).
Proof.
  unfold polygonize.
  destruct (label (anomaly_mask config score_grid)) as [labeled n].
  destruct n as [| n]; [constructor |].
  match goal with
  | |- context [scan backend ?b ?o ?a ?w0] => destruct (scan backend b o a w0) as [a1 w1']
  end.
  simpl fst. apply sort_by_priority_sorted.
Qed.

End Reproducibility.

(** C7, amended. Two analyses of the same grid under the same
    configuration, forest model (its random state fixed by the
    configuration) and vector backend either raise the same exception or
    return anomaly lists that agree, position by position, on every field
    but the fresh [id], [run_id] and [created_at], whatever sources of
    fresh values and run ids they are given; each list is ordered by
    descending QC priority. *)
Theorem runs_agree_up_to_fresh_values
    (config : Config.ProcessingConfig) (model : AnomalyDetector.IsolationForest)
    (backend : Polygonizer.VectorBackend)
    (e1 e2 : Polygonizer.Entropy) (w1 w2 : Polygonizer.World) (rid1 rid2 : N)
    (data : Grid.grid) (metadata : Polygonizer.Metadata) :
  match MLPipeline.run_analysis config model backend e1 data metadata rid1 w1,
        MLPipeline.run_analysis config model backend e2 data metadata rid2 w2 with
  | Ok (l1, _), Ok (l2, _) =>
      map (@Props.erase_fresh _) l1 = map (@Props.erase_fresh _) l2 /\
      Props.descending (map (@Entities.qc_priority _) l1) /\
      Props.descending (map (@Entities.qc_priority _) l2)
  | Raise x1, Raise x2 => x1 = x2
  | _, _ => False
  end.
Proof.
  unfold MLPipeline.run_analysis.
  destruct (AnomalyDetector.detect config model data _) as [r | ex]; simpl bind;
    [| reflexivity].
  pose proof (@polygonize_erase config backend e1 e2 w1 w2
                (AnomalyDetector.score_grid r) metadata
                (AnomalyDetector.detector_results r) data) as He.
  pose proof (@polygonize_sorted config backend e1 w1
                (AnomalyDetector.score_grid r) metadata
                (AnomalyDetector.detector_results r) data) as Hs1.
  pose proof (@polygonize_sorted config backend e2 w2
                (AnomalyDetector.score_grid r) metadata
                (AnomalyDetector.detector_results r) data) as Hs2.
  match goal with
  | |- context [Polygonizer.polygonize config backend e1 ?sg ?md ?dr ?da ?ct w1] =>
      specialize (He ct); specialize (Hs1 ct); specialize (Hs2 ct);
      destruct (Polygonizer.polygonize config backend e1 sg md dr da ct w1) as [l1 w1'];
      destruct (Polygonizer.polygonize config backend e2 sg md dr da ct w2) as [l2 w2']
  end.
  simpl fst in *. rewrite !map_map. simpl.
  split; [exact He |]. split; assumption.
Qed.

(** Two analyses of [Sample.holed] that differ only in their source of
    fresh values return one anomaly each, with different ids: the two
    anomaly lists are not identical. *)
Lemma fresh_values_differ_between_runs :
  map (@Entities.id _) (Sample.anomalies_of 1) = [1%N] /\
  map (@Entities.id _) (Sample.anomalies_of 2) = [2%N] /\
  Sample.anomalies_of 1 <> Sample.anomalies_of 2.
Proof.
  assert (H1 : map (@Entities.id _) (Sample.anomalies_of 1) = [1%N])
    by (vm_compute; reflexivity).
  assert (H2 : map (@Entities.id _) (Sample.anomalies_of 2) = [2%N])
    by (vm_compute; reflexivity).
  split; [exact H1 |]. split; [exact H2 |].
  intros E. rewrite E in H1. congruence.
Qed.

(* ------------------------------------------------------------------ *)
(** ** Nodata masks of the feature surfaces *)

(** C1, at the 4x4 grid [Sample.corner_hole] whose only NaN cell is
    (3,3), with the default configuration: the slope surface is NaN at
    the valid cells (2,2), (2,3) and (3,2) as well, and the curvature
    surface is NaN on the whole 3x3 block of rows and columns 1-3; the
    other five surfaces are NaN at (3,3) only. *)
Theorem slope_and_curvature_widen_nodata :
  let features := FeatureExtractor.extract_features Config.empty Sample.corner_hole in
  let nan_mask name := option_map (Grid.gmap isnan) (Config.lookup name features) in
  Grid.gmap isnan Sample.corner_hole
  = [ [false; false; false; false];
      [false; false; false; false];
      [false; false; false; false];
      [false; false; false; true] ] /\
  nan_mask "slope"%string
  = Some [ [false; false; false; false];
           [false; false; false; false];
           [false; false; true; true];
           [false; false; true; true] ] /\
  nan_mask "curvature"%string
  = Some [ [false; false; false; false];
           [false; true; true; true];
           [false; true; true; true];
           [false; true; true; true] ] /\
  nan_mask "z_score"%string = Some (Grid.gmap isnan Sample.corner_hole) /\
  nan_mask "roughness"%string = Some (Grid.gmap isnan Sample.corner_hole) /\
  nan_mask "laplacian"%string = Some (Grid.gmap isnan Sample.corner_hole) /\
  nan_mask "neighbor_mean"%string = Some (Grid.gmap isnan Sample.corner_hole) /\
  nan_mask "neighbor_std"%string = Some (Grid.gmap isnan Sample.corner_hole).
Proof.
  cbv zeta.
  split; [| split; [| split; [| split; [| split; [| split; [| split]]]]]];
    vm_compute; reflexivity.
Qed.

Section FeatureShapes.

Import Grid Ndimage Config FeatureExtractor Props.

Lemma shape_correlate1d_axis1 (w : list Q) (g : grid) :
  shape (correlate1d_axis1 w g) = shape g.
Proof.
  unfold shape, correlate1d_axis1. rewrite map_map. apply map_ext.
  intros row. apply mapi_from_length.
Qed.

Lemma shape_correlate1d_axis0 (w : list Q) (g : grid) :
  shape (correlate1d_axis0 w g) = shape g.
Proof. apply shape_gmapi. Qed.

Lemma shape_sobel_axis1 (g : grid) : shape (sobel_axis1 g) = shape g.
Proof.
  unfold sobel_axis1. now rewrite shape_correlate1d_axis0, shape_correlate1d_axis1.
Qed.

Lemma shape_sobel_axis0 (g : grid) : shape (sobel_axis0 g) = shape g.
Proof.
  unfold sobel_axis0. now rewrite shape_correlate1d_axis1, shape_correlate1d_axis0.
Qed.

Lemma shape_laplace (g : grid) : shape (laplace g) = shape g.
Proof. unfold laplace. now rewrite shape_gmapi, shape_correlate1d_axis0. Qed.

Lemma shape_convolve_box (w : positive) (g : grid) :
  shape (convolve_box w g) = shape g.
Proof. apply shape_gmapi. Qed.

Lemma shape_local_mean (w : positive) (data : grid) :
  shape (local_mean w data) = shape data.
Proof.
  unfold local_mean, filled_masked.
  now rewrite shape_gmapi, shape_convolve_box, shape_gmap.
Qed.

Lemma shape_local_std (w : positive) (data : grid) :
  shape (local_std w data) = shape data.
Proof.
  unfold local_std, local_var, filled_masked.
  now rewrite shape_gmap, shape_gmapi, shape_convolve_box, shape_gmap.
Qed.

(** Masking a surface of the shape of the data keeps the shape and puts
    NaN at every NaN cell of the data. *)
Lemma set_nan_where_invalid_spec (data out : grid) :
  shape out = shape data ->
  shape (set_nan_where_invalid data out) = shape data /\
  forall i j, cell data i j = Some NaN ->
              cell (set_nan_where_invalid data out) i j = Some NaN.
Proof.
  intros Hs. split.
  - unfold set_nan_where_invalid. now rewrite shape_gmapi.
  - intros i j Hd.
    destruct (@same_shape_cell _ _ data out i j NaN (eq_sym Hs) Hd) as (v & Hv).
    now rewrite (@set_nan_where_invalid_cell data out i j NaN v Hd Hv).
Qed.

(** Every feature surface has the shape of the depth grid and is NaN
    wherever the depth grid is NaN. *)
Theorem features_keep_nodata (config : ProcessingConfig) (data : grid)
    (name : string) (feature : grid) :
  lookup name (extract_features config data) = Some feature ->
  shape feature = shape data /\
  forall i j, cell data i j = Some NaN -> cell feature i j = Some NaN.
Proof.
  unfold extract_features. cbv zeta.
  cbn [lookup fst snd _compute_neighbor_stats].
  repeat (destruct (String.eqb name _);
          [intros H; injection H as <-; apply set_nan_where_invalid_spec |]);
    try discriminate.
  - now rewrite shape_gmapi.
  - now rewrite shape_gmapi, shape_sobel_axis1.
  - now rewrite shape_gmapi, !shape_sobel_axis1.
  - apply shape_local_std.
  - now rewrite shape_laplace, shape_gmap.
  - apply shape_local_mean.
  - apply shape_local_std.
Qed.

End FeatureShapes.

Lemma features_keep_nodata_witness :
  Config.lookup "slope"%string
    (FeatureExtractor.extract_features Config.empty Sample.corner_hole)
  = Some (FeatureExtractor._compute_slope Sample.corner_hole) /\
  Props.shape (FeatureExtractor._compute_slope Sample.corner_hole)
  = Props.shape Sample.corner_hole /\
  forall i j, Grid.cell Sample.corner_hole i j = Some NaN ->
              Grid.cell (FeatureExtractor._compute_slope Sample.corner_hole) i j
              = Some NaN.
Proof.
  split; [reflexivity |].
  exact (@features_keep_nodata Config.empty Sample.corner_hole "slope"%string
           (FeatureExtractor._compute_slope Sample.corner_hole) eq_refl).
Defined.

(* ------------------------------------------------------------------ *)
(** ** Limits of the polygonizer *)

Section PolygonizerBounds.

Import Grid Config Entities Morphology Polygonizer Props.

Variable config : ProcessingConfig.
Variable backend : VectorBackend.
Variable entropy : Entropy.

Local Abbreviation anomaly := (Anomaly (geometry_t backend)) (only parsing).

Lemma insert_desc_length (a : anomaly) (l : list anomaly) :
  List.length (insert_desc backend a l) = S (List.length l).
Proof.
  induction l as [| y t IH]; simpl; [reflexivity |].
  destruct (ltb (qc_priority a) (qc_priority y)); simpl; [now rewrite IH | reflexivity].
Qed.

Lemma sort_by_priority_length (l : list anomaly) :
  List.length (sort_by_priority backend l) = List.length l.
Proof.
  unfold sort_by_priority. induction l as [| a t IH]; simpl; [reflexivity |].
  now rewrite insert_desc_length, IH.
Qed.

(** The second [break] keeps the list at or below the limit. *)
Lemma scan_length body objects :
  forall (acc : list anomaly) (w : World),
    (List.length acc <= max_anomalies)%nat ->
    (List.length (fst (scan backend body objects acc w)) <= max_anomalies)%nat.
Proof.
  induction objects as [| [label_id obj_slice] rest IH]; intros acc w Hacc.
  - exact Hacc.
  - rewrite scan_cons.
    destruct (max_scan_count <? label_id)%nat; [exact Hacc |].
    destruct obj_slice as [sl |]; [| now apply IH].
    destruct (Nat.leb_spec max_anomalies (List.length acc)); [exact Hacc |].
    destruct (body label_id sl w) as [[a w'] |]; [| now apply IH].
    apply IH. rewrite length_app. simpl. lia.
Qed.

(** [polygonize] never returns more than [max_anomalies] anomalies. *)
Theorem polygonize_at_most_max_anomalies
    (score_grid : grid) (metadata : Metadata) (detector_results : dict grid)
    (data : grid) (config_thresholds : dict Q) (w : World) :
  (List.length (fst (polygonize config backend entropy score_grid metadata
                                detector_results data config_thresholds w))
   <= max_anomalies)%nat.
Proof.
  unfold polygonize.
  destruct (label (anomaly_mask config score_grid)) as [labeled n].
  destruct n as [| n]; [simpl; lia |].
  match goal with
  | |- context [scan backend ?b ?o ?a ?w0] =>
      pose proof (@scan_length b o a w0) as Hs;
      destruct (scan backend b o a w0) as [anoms w']
  end.
  simpl fst in *. rewrite sort_by_priority_length. apply Hs. simpl. lia.
Qed.

Lemma cell_zeros_like {A : Type} (g : list (list A)) (i j : nat) (s : float) :
  cell (zeros_like g) i j = Some s -> s = Fin 0.
Proof.
  unfold zeros_like. rewrite cell_gmap. destruct (cell g i j); simpl; congruence.
Qed.

(** A mask without a set cell has no component. *)
Lemma label_clear (m : mask) :
  (forall i j, cell m i j <> Some true) ->
  label m = (gmap (fun _ => 0%nat) m, 0%nat).
Proof.
  intros Hclear. unfold label.
  generalize (gmap (fun _ : bool => 0%nat) m, 0%nat).
  induction (positions m) as [| ij t IH]; intros st; simpl; [reflexivity |].
  rewrite <- (IH st) at 2. f_equal.
  unfold label_step. destruct st as [lab n].
  unfold unlabelled.
  destruct (get_const false m (Z.of_nat (fst ij)) (Z.of_nat (snd ij))) eqn:E;
    [| reflexivity].
  apply get_const_true in E. destruct E as (_ & _ & E).
  now apply Hclear in E.
Qed.

(** When no score exceeds the anomaly threshold, [polygonize] returns no
    anomaly and draws no fresh value. *)
Theorem no_score_above_threshold_no_anomalies
    (score_grid : grid) (metadata : Metadata) (detector_results : dict grid)
    (data : grid) (config_thresholds : dict Q) (w : World) :
  (forall i j s, cell score_grid i j = Some s ->
                 gtb s (Fin (anomaly_threshold config)) = false) ->
  polygonize config backend entropy score_grid metadata detector_results data
             config_thresholds w = ([], w).
Proof.
  intros Hlow. unfold polygonize. rewrite label_clear; [reflexivity |].
  intros i j Hc. apply anomaly_mask_above in Hc.
  destruct Hc as (s & Hs & Hgt). apply Hlow in Hs. unfold gtb in Hs. congruence.
Qed.

End PolygonizerBounds.

Lemma no_score_above_threshold_no_anomalies_witness :
  (forall i j s,
     Grid.cell (Grid.zeros_like Sample.holed) i j = Some s ->
     gtb s (Fin (Config.anomaly_threshold Config.empty)) = false) /\
  Polygonizer.polygonize Config.empty Sample.backend (Sample.entropy 1)
    (Grid.zeros_like Sample.holed) Sample.metadata0 [] Sample.holed []
    Sample.world0
  = ([], Sample.world0).
Proof.
  assert (H : forall i j s,
             Grid.cell (Grid.zeros_like Sample.holed) i j = Some s ->
             gtb s (Fin (Config.anomaly_threshold Config.empty)) = false).
  { intros i j s Hs. apply cell_zeros_like in Hs. subst s. reflexivity. }
  split; [exact H |].
  exact (@no_score_above_threshold_no_anomalies Config.empty Sample.backend
           (Sample.entropy 1) (Grid.zeros_like Sample.holed) Sample.metadata0 []
           Sample.holed [] Sample.world0 H).
Defined.

(* ------------------------------------------------------------------ *)
(** ** Runs with the detectors switched off *)

Section PipelineFacts.

Import Grid Config Entities Morphology Polygonizer Props.

Variable config : ProcessingConfig.
Variable model : AnomalyDetector.IsolationForest.
Variable backend : VectorBackend.
Variable entropy : Entropy.

Local Abbreviation anomaly := (Anomaly (geometry_t backend)) (only parsing).

(** With both detectors switched off nothing is scored: the combined
    surface is zero everywhere. *)
Lemma detect_disabled (data : grid) (features : dict grid) :
  isolation_forest_enabled config = Some false ->
  zscore_enabled config = Some false ->
  exists m,
    AnomalyDetector.detect config model data features
    = Ok {| AnomalyDetector.anomaly_mask := m;
            AnomalyDetector.score_grid := zeros_like data;
            AnomalyDetector.detector_results := [] |}.
Proof.
  intros H1 H2. unfold AnomalyDetector.detect. rewrite H1, H2. simpl.
  eexists. reflexivity.
Qed.

(** With both detectors switched off and a threshold that is not
    negative, the analysis of any grid returns no anomaly, without an
    exception. *)
Theorem disabled_detectors_no_anomalies
    (data : grid) (metadata : Metadata) (rid : N) (w : World) :
  isolation_forest_enabled config = Some false ->
  zscore_enabled config = Some false ->
  0 <= anomaly_threshold config ->
  MLPipeline.run_analysis config model backend entropy data metadata rid w
  = Ok ([], w).
Proof.
  intros H1 H2 Hthr. unfold MLPipeline.run_analysis.
  destruct (@detect_disabled data (FeatureExtractor.extract_features config data) H1 H2)
    as (m & ->).
  simpl bind. cbn [AnomalyDetector.score_grid AnomalyDetector.detector_results].
  unfold polygonize. rewrite label_clear; [reflexivity |].
  intros i j Hc. apply anomaly_mask_above in Hc.
  destruct Hc as (s & Hs & Hgt). apply cell_zeros_like in Hs. subst s.
  apply Qltb_ge in Hthr. cbn [gtb ltb] in Hgt. congruence.
Qed.

End PipelineFacts.

Lemma disabled_detectors_no_anomalies_witness :
  MLPipeline.run_analysis Sample.detectors_off Sample.forest Sample.backend
    (Sample.entropy 1) Sample.holed Sample.metadata0 7%N Sample.world0
  = Ok ([], Sample.world0).
Proof.
  apply (@disabled_detectors_no_anomalies Sample.detectors_off Sample.forest Sample.backend
           (Sample.entropy 1) Sample.holed Sample.metadata0 7%N Sample.world0);
    [reflexivity | reflexivity | vm_compute; discriminate].
Defined.

(* ------------------------------------------------------------------ *)
(** ** The record kept for each anomaly *)

Section AnomalyRecords.

Import Grid Config Entities Morphology Polygonizer Props.

Variable config : ProcessingConfig.
Variable model : AnomalyDetector.IsolationForest.
Variable backend : VectorBackend.
Variable entropy : Entropy.

Local Abbreviation anomaly := (Anomaly (geometry_t backend)) (only parsing).

(** What the loop body records in the explanation and the review fields. *)
Lemma build_anomaly_explained score_grid metadata detector_results data
    config_thresholds transformer labeled label_id sl w (x : anomaly) w' :
  build_anomaly config backend entropy score_grid metadata detector_results data
                config_thresholds transformer labeled label_id sl w
    = Some (x, w') ->
  review_decision x = PENDING /\
  pixel_count (explanation x) = neighbor_count x /\
  (min_area config <= Z.of_nat (neighbor_count x))%Z /\
  area_sq_meters x =
    (let resolution := or_default (md_resolution metadata) (1, 1) in
     mul (of_nat (neighbor_count x))
         (Fin (Qabs (fst resolution * snd resolution)))) /\
  thresholds (explanation x) = config_thresholds /\
  map fst (features (explanation x)) = map fst detector_results /\
  detector_flags (explanation x) =
    map fst (filter (fun item => gtb (snd item) (Fin (anomaly_threshold config)))
                    (features (explanation x))) /\
  (local_depth_mean x = None <-> local_depth_std x = None).
Proof.
  unfold build_anomaly. destruct sl as [[[r0 r1] c0] c1]. cbv zeta.
  match goal with
  | |- context [(Z.of_nat ?p <? min_area config)%Z] =>
      destruct (Z.ltb_spec (Z.of_nat p) (min_area config)); [discriminate |]
  end.
  match goal with
  | |- context [shapes backend ?m ?t] => destruct (shapes backend m t); [| discriminate]
  end.
  intros Hb. injection Hb as <- <-. cbn [review_decision explanation pixel_count
    neighbor_count area_sq_meters thresholds features detector_flags
    local_depth_mean local_depth_std].
  repeat split; auto.
  - rewrite map_map. reflexivity.
  - match goal with |- context [Np.drop_nan ?l] => destruct (Np.drop_nan l) end;
      congruence.
  - match goal with |- context [Np.drop_nan ?l] => destruct (Np.drop_nan l) end;
      congruence.
Qed.

Lemma detect_detector_names (data : grid) (features : dict grid)
    (r : AnomalyDetector.DetectionResult) (name : string) :
  AnomalyDetector.detect config model data features = Ok r ->
  In name (map fst (AnomalyDetector.detector_results r)) ->
  name = "isolation_forest"%string \/ name = "zscore"%string.
Proof.
  unfold AnomalyDetector.detect.
  destruct (or_default (isolation_forest_enabled config) true);
    [destruct (AnomalyDetector._run_isolation_forest config model data features);
     [| discriminate] |];
    (destruct (or_default (zscore_enabled config) true);
     [destruct (lookup "z_score"%string features); [| discriminate] |]);
    simpl; intros H Hin; injection H as <-; simpl in Hin; intuition auto.
Qed.

(** Every anomaly that [run_analysis] returns carries the id of the run,
    awaits review, counts at least [min_area] pixels, has the area of
    those pixels, and explains itself by the mean scores of the enabled
    detectors, the flagged ones being those whose mean exceeds the
    anomaly threshold. *)
Theorem analysis_anomaly_record
    (data : grid) (metadata : Metadata) (rid : N) (w w' : World)
    (l : list anomaly) (x : anomaly) :
  MLPipeline.run_analysis config model backend entropy data metadata rid w
  = Ok (l, w') ->
  In x l ->
  run_id x = rid /\
  review_decision x = PENDING /\
  pixel_count (explanation x) = neighbor_count x /\
  (min_area config <= Z.of_nat (neighbor_count x))%Z /\
  area_sq_meters x =
    (let resolution := or_default (md_resolution metadata) (1, 1) in
     mul (of_nat (neighbor_count x))
         (Fin (Qabs (fst resolution * snd resolution)))) /\
  thresholds (explanation x) =
    [ ("anomaly_threshold"%string, anomaly_threshold config);
      ("zscore_threshold"%string, or_default (threshold (zscore_config config)) 3);
      ("isolation_contamination"%string,
       or_default (contamination (isolation_forest_config config)) (1 # 10)) ] /\
  (forall name, In name (map fst (features (explanation x))) ->
                name = "isolation_forest"%string \/ name = "zscore"%string) /\
  detector_flags (explanation x) =
    map fst (filter (fun item => gtb (snd item) (Fin (anomaly_threshold config)))
                    (features (explanation x))) /\
  (local_depth_mean x = None <-> local_depth_std x = None).
Proof.
  unfold MLPipeline.run_analysis.
  destruct (AnomalyDetector.detect config model data _) as [r | ex] eqn:Ed;
    [| discriminate].
  simpl bind.
  match goal with
  | |- context [polygonize config backend entropy ?sg ?md ?dr ?da ?ct w] =>
      pose proof (@polygonize_In config backend entropy sg md dr da ct w) as Hp;
      destruct (polygonize config backend entropy sg md dr da ct w) as [anoms w1]
  end.
  intros H Hin. injection H as <- <-.
  apply in_map_iff in Hin. destruct Hin as (y & <- & Hy).
  simpl fst in Hp. destruct (Hp y Hy) as (tr & label_id & sl & w0 & w2 & _ & _ & Hb).
  apply build_anomaly_explained in Hb.
  destruct Hb as (Hr & Hpc & Hmin & Harea & Hthr & Hnames & Hflags & Hdepth).
  unfold MLPipeline.set_run_id.
  cbn [run_id review_decision explanation neighbor_count area_sq_meters
       local_depth_mean local_depth_std].
  repeat split; try assumption; try tauto.
  intros name Hname. rewrite Hnames in Hname.
  exact (@detect_detector_names _ _ _ _ Ed Hname).
Qed.

End AnomalyRecords.

Lemma analysis_anomaly_record_witness :
  let x := hd Sample.no_anomaly (Sample.anomalies_of 1) in
  In x (Sample.anomalies_of 1) /\
  Entities.run_id x = 7%N /\
  Entities.review_decision x = Entities.PENDING /\
  Entities.pixel_count (Entities.explanation x) = Entities.neighbor_count x /\
  (Polygonizer.min_area Sample.tiny_area <= Z.of_nat (Entities.neighbor_count x))%Z /\
  Entities.area_sq_meters x =
    (let resolution :=
       Config.or_default (Polygonizer.md_resolution Sample.metadata0) (1, 1) in
     mul (Polygonizer.of_nat (Entities.neighbor_count x))
         (Fin (Qabs (fst resolution * snd resolution)))) /\
  Entities.thresholds (Entities.explanation x) =
    [ ("anomaly_threshold"%string, Config.anomaly_threshold Sample.tiny_area);
      ("zscore_threshold"%string,
       Config.or_default (Config.threshold (Config.zscore_config Sample.tiny_area)) 3);
      ("isolation_contamination"%string,
       Config.or_default
         (Config.contamination (Config.isolation_forest_config Sample.tiny_area))
         (1 # 10)) ] /\
  (forall name, In name (map fst (Entities.features (Entities.explanation x))) ->
                name = "isolation_forest"%string \/ name = "zscore"%string) /\
  Entities.detector_flags (Entities.explanation x) =
    map fst (filter (fun item => gtb (snd item)
                                     (Fin (Config.anomaly_threshold Sample.tiny_area)))
                    (Entities.features (Entities.explanation x))) /\
  (Entities.local_depth_mean x = None <-> Entities.local_depth_std x = None).
Proof.
  intros x.
  assert (Hids : map (@Entities.id _) (Sample.anomalies_of 1) = [1%N])
    by (vm_compute; reflexivity).
  assert (Hin : In x (Sample.anomalies_of 1)).
  { unfold x. revert Hids.
    destruct (Sample.anomalies_of 1); [intros H; discriminate H | intros _; now left]. }
  assert (Hrun : exists w',
             MLPipeline.run_analysis Sample.tiny_area Sample.forest Sample.backend
               (Sample.entropy 1) Sample.holed Sample.metadata0 7 Sample.world0
             = Ok (Sample.anomalies_of 1, w')).
  { revert Hids. clear Hin. unfold Sample.anomalies_of, Sample.analysis.
    destruct (MLPipeline.run_analysis Sample.tiny_area Sample.forest Sample.backend
                (Sample.entropy 1) Sample.holed Sample.metadata0 7 Sample.world0)
      as [[l w'] | ex].
    - intros _. exists w'. reflexivity.
    - intros H. discriminate H. }
  destruct Hrun as (w' & Hrun).
  split; [exact Hin |].
  exact (@analysis_anomaly_record Sample.tiny_area Sample.forest Sample.backend
           (Sample.entropy 1) Sample.holed Sample.metadata0 7 Sample.world0 w'
           (Sample.anomalies_of 1) x Hrun Hin).
Defined.

(* ------------------------------------------------------------------ *)
(** ** Confidence counts of a run *)

Section RunSummaries.

Import Entities Runs.

Variable G : Type.

Lemma count_confidence_from (level : ConfidenceLevel) (l : list (Anomaly G)) :
  forall n,
    fold_left (fun n a => if level_eqb (confidence_level a) level then (n + 1)%nat else n)
              l n
    = (n + count_confidence level l)%nat.
Proof.
  unfold count_confidence. induction l as [| a t IH]; intros n; simpl; [lia |].
  rewrite IH, (IH (if level_eqb (confidence_level a) level then 1 else 0)%nat).
  destruct (level_eqb (confidence_level a) level); lia.
Qed.

Lemma count_confidence_cons (level : ConfidenceLevel) (a : Anomaly G) (l : list (Anomaly G)) :
  count_confidence level (a :: l)
  = ((if level_eqb (confidence_level a) level then 1 else 0) + count_confidence level l)%nat.
Proof.
  unfold count_confidence at 1. simpl. rewrite count_confidence_from.
  destruct (level_eqb (confidence_level a) level); reflexivity.
Qed.

(** The three confidence counts stored on a run add up to its total
    number of anomalies. *)
Theorem confidence_counts_partition (anomalies : list (Anomaly G)) :
  let s := summarize anomalies in
  (high_confidence_count s + medium_confidence_count s + low_confidence_count s
   = total_anomalies s)%nat.
Proof.
  simpl. induction anomalies as [| a t IH]; [reflexivity |].
  rewrite !count_confidence_cons. simpl List.length.
  destruct (confidence_level a); simpl; lia.
Qed.

End RunSummaries.

(* ------------------------------------------------------------------ *)
(** ** The heatmap of a detection result *)

Section HeatmapFacts.

Import Grid Config AnomalyDetector Props.

Lemma gmap_fixed {A : Type} (fn : A -> A) (g : list (list A)) :
  (forall i j v, cell g i j = Some v -> fn v = v) -> gmap fn g = g.
Proof.
  intros H. unfold gmap.
  rewrite <- (map_id g) at 2. apply map_ext_in. intros row Hrow.
  apply In_nth_error in Hrow. destruct Hrow as (i & Hi).
  rewrite <- (map_id row) at 2. apply map_ext_in. intros v Hv.
  apply In_nth_error in Hv. destruct Hv as (j & Hj).
  apply (H i j). unfold cell. now rewrite Hi.
Qed.

Lemma shape_combine_scores (config : ProcessingConfig) (drs : dict grid) (data : grid) :
  shape (_combine_scores config drs data) = shape data.
Proof.
  unfold _combine_scores.
  match goal with
  | |- context [fold_left ?f ?l ?a] =>
      assert (Hf : shape (fst (fold_left f l a)) = shape data)
  end.
  { assert (H0 : shape (fst (zeros_like data, 0)) = shape data)
      by (simpl; unfold zeros_like; apply shape_gmap).
    revert H0. generalize (zeros_like data, 0).
    induction drs as [| it t IH]; intros acc Hacc; cbn [fold_left]; [exact Hacc |].
    apply IH. unfold accumulate. cbn [fst]. now rewrite shape_gmapi. }
  destruct (Qltb 0 _); [now rewrite shape_gmap | exact Hf].
Qed.

(** Every cell of the combined surface is a finite number. *)
Lemma detect_score_finite (config : ProcessingConfig) (model : IsolationForest)
    (data : grid) (r : DetectionResult) (i j : nat) (s : float) :
  detect config model data (FeatureExtractor.extract_features config data) = Ok r ->
  cell (score_grid r) i j = Some s -> isfinite s = true.
Proof.
  intros Hdet Hs.
  assert (Hsh : shape (score_grid r) = shape data).
  { revert Hdet. unfold detect.
    destruct (if or_default (isolation_forest_enabled config) true then _ else _)
      as [r1 |]; [| discriminate]. simpl bind.
    destruct (if or_default (zscore_enabled config) true then _ else _)
      as [r2 |]; [| discriminate]. simpl bind.
    intros H. injection H as <-. cbn [score_grid]. apply shape_combine_scores. }
  destruct (@same_shape_cell _ _ _ _ _ _ _ Hsh Hs) as (d & Hd).
  destruct (@detect_surfaces _ _ _ _ _ _ _ Hdet Hd) as [E Hitems].
  rewrite E in Hs.
  rewrite (@combine_scores_cell config _ _ _ _ _ Hd) in Hs
    by (intros item Hitem; destruct (Hitems item Hitem) as (q & Hq & _); eauto).
  cbv zeta in Hs. destruct (Qltb 0 _) in Hs; injection Hs as <-; reflexivity.
Qed.

(** The heatmap written for a detection result is its score surface
    unchanged: the surface holds no NaN, so the nodata value never
    appears in place of a score. *)
Theorem heatmap_keeps_scores (config : ProcessingConfig) (model : IsolationForest)
    (data : grid) (r : DetectionResult) (nodata_value : option Q) :
  detect config model data (FeatureExtractor.extract_features config data) = Ok r ->
  HeatmapGenerator.output_data nodata_value (score_grid r) = score_grid r.
Proof.
  intros Hdet. unfold HeatmapGenerator.output_data. cbv zeta.
  apply gmap_fixed. intros i j s Hs.
  apply (@detect_score_finite _ _ _ _ _ _ _ Hdet) in Hs. now destruct s.
Qed.

End HeatmapFacts.

Lemma heatmap_keeps_scores_witness :
  HeatmapGenerator.output_data None (AnomalyDetector.score_grid Sample.holed_detection)
  = AnomalyDetector.score_grid Sample.holed_detection.
Proof.
  exact (@heatmap_keeps_scores Config.empty Sample.forest Sample.holed
           Sample.holed_detection None holed_detection_eq).
Defined.

(* ------------------------------------------------------------------ *)
(** ** Statistics of a grid *)

Section StatisticsFacts.

Import Grid RasterProcessor.

Lemma filter_split_length {A : Type} (p : A -> bool) (l : list A) :
  (List.length (filter (fun x => negb (p x)) l) + List.length (filter p l)
   = List.length l)%nat.
Proof.
  induction l as [| x t IH]; simpl; [reflexivity |].
  destruct (p x); simpl; lia.
Qed.

Lemma drop_nan_valid (l : list float) (v : float) :
  In v (Np.drop_nan l) <-> In v l /\ isnan v = false.
Proof.
  unfold Np.drop_nan. rewrite filter_In. now rewrite negb_true_iff.
Qed.

(** The running minimum of values that are not NaN is one of them and
    lies below all of them. *)
Lemma min_list_least (l : list float) :
  forall x,
    isnan x = false -> (forall y, In y l -> isnan y = false) ->
    In (Np.min_list x l) (x :: l) /\
    forall y, In y (x :: l) -> leb (Np.min_list x l) y = true.
Proof.
  unfold Np.min_list. induction l as [| y t IH]; intros x Hx Hl; simpl fold_left.
  - split; [now left |]. intros y [<- | []]. now apply leb_refl.
  - assert (Hy : isnan y = false) by (apply Hl; now left).
    assert (Ht : forall z, In z t -> isnan z = false) by (intros z Hz; apply Hl; now right).
    destruct (ltb y x) eqn:E.
    + destruct (IH y Hy Ht) as [Hin Hle]. split; [now right |].
      intros z [<- | Hz]; [| now apply Hle].
      apply leb_trans with y; [apply Hle; now left | now apply ltb_leb].
    + destruct (IH x Hx Ht) as [Hin Hle]. split.
      * destruct Hin as [Hin | Hin]; [now left | right; now right].
      * intros z [<- | [<- | Hz]].
        -- apply Hle. now left.
        -- apply leb_trans with x; [apply Hle; now left | now apply ltb_false_leb].
        -- apply Hle. now right.
Qed.

Lemma max_list_greatest (l : list float) :
  forall x,
    isnan x = false -> (forall y, In y l -> isnan y = false) ->
    In (Np.max_list x l) (x :: l) /\
    forall y, In y (x :: l) -> leb y (Np.max_list x l) = true.
Proof.
  unfold Np.max_list. induction l as [| y t IH]; intros x Hx Hl; simpl fold_left.
  - split; [now left |]. intros y [<- | []]. now apply leb_refl.
  - assert (Hy : isnan y = false) by (apply Hl; now left).
    assert (Ht : forall z, In z t -> isnan z = false) by (intros z Hz; apply Hl; now right).
    destruct (ltb x y) eqn:E.
    + destruct (IH y Hy Ht) as [Hin Hle]. split; [now right |].
      intros z [<- | Hz]; [| now apply Hle].
      apply leb_trans with y; [now apply ltb_leb | apply Hle; now left].
    + destruct (IH x Hx Ht) as [Hin Hle]. split.
      * destruct Hin as [Hin | Hin]; [now left | right; now right].
      * intros z [<- | [<- | Hz]].
        -- apply Hle. now left.
        -- apply leb_trans with x; [now apply ltb_false_leb | apply Hle; now left].
        -- apply Hle. now right.
Qed.

(** [compute_statistics] never raises.  Its counts split the cells of
    the grid into valid and nodata ones; the five statistics are absent
    exactly when no cell is valid; otherwise [z_min] and [z_max] are
    values of the grid that bound every valid cell. *)
Theorem statistics_counts_and_range (data : grid) :
  exists s,
    compute_statistics data = Ok s /\
    total_count s = List.length (concat data) /\
    (valid_count s + nodata_count s = total_count s)%nat /\
    (valid_count s = 0%nat <-> z_min s = None) /\
    (z_min s = None <->
     z_max s = None /\ z_mean s = None /\ z_std s = None /\ z_median s = None) /\
    forall lo hi, z_min s = Some lo -> z_max s = Some hi ->
      In lo (concat data) /\ In hi (concat data) /\
      forall v, In v (concat data) -> isnan v = false ->
                leb lo v = true /\ leb v hi = true.
Proof.
  unfold compute_statistics. cbv zeta.
  pose proof (filter_split_length isnan (concat data)) as Hlen.
  fold (Np.drop_nan (concat data)) in Hlen.
  destruct (Np.drop_nan (concat data)) as [| x t] eqn:Ev.
  - eexists. split; [reflexivity |]. cbn.
    repeat split; auto; try discriminate.
  - assert (Hne : concat data <> []).
    { intros E. rewrite E in Ev. discriminate. }
    unfold Np.nanmin, Np.nanmax. rewrite Ev.
    destruct (concat data) as [| c0 ct] eqn:Ec; [congruence |]. rewrite <- Ec in *.
    simpl bind. eexists. split; [reflexivity |]. cbn.
    assert (Hvalid : forall y, In y (x :: t) -> isnan y = false).
    { intros y Hy. rewrite <- Ev in Hy. now apply drop_nan_valid in Hy. }
    assert (Hx : isnan x = false) by (apply Hvalid; now left).
    assert (Ht : forall y, In y t -> isnan y = false)
      by (intros y Hy; apply Hvalid; now right).
    destruct (@min_list_least t x Hx Ht) as [Hmin_in Hmin].
    destruct (@max_list_greatest t x Hx Ht) as [Hmax_in Hmax].
    split; [reflexivity |]. split; [simpl in Hlen; exact Hlen |].
    split; [split; discriminate |].
    split; [split; [discriminate | intros [H _]; discriminate] |].
    intros lo hi Hlo Hhi. injection Hlo as <-. injection Hhi as <-.
    rewrite <- Ev in Hmin_in, Hmax_in.
    apply drop_nan_valid in Hmin_in. apply drop_nan_valid in Hmax_in.
    split; [tauto |]. split; [tauto |].
    intros v Hv Hnan.
    assert (Hin : In v (x :: t)) by (rewrite <- Ev; now apply drop_nan_valid).
    split; [now apply Hmin | now apply Hmax].
Qed.

End StatisticsFacts.

(* ------------------------------------------------------------------ *)
(** ** Deep-biased sounding selection *)

Section Deep.

Import Grid Sounding Props.





End Deep.


(* ------------------------------------------------------------------ *)
(** ** One sounding per cell *)

Section CellIds.

Import Grid Sounding Props.

Lemma NoDup_pairs {A B : Type} (l : list A) (l' : list B) :
  NoDup l -> NoDup l' -> NoDup (flat_map (fun a => map (pair a) l') l).
Proof.
  intros Hl Hl'. induction Hl as [| a t Ha Ht IH]; simpl; [constructor |].
  apply NoDup_app; [| exact IH |].
  - apply NoDup_map_NoDup_ForallPairs; [| exact Hl'].
    intros x y _ _ E. now injection E.
  - intros [a' b'] Hin Hin'.
    apply in_map_iff in Hin. destruct Hin as (b0 & E & _). injection E as <- <-.
    apply in_flat_map in Hin'. destruct Hin' as (a1 & Ha1 & Hin').
    apply in_map_iff in Hin'. destruct Hin' as (b1 & E & _). injection E as -> _.
    contradiction.
Qed.

Lemma range_step_NoDup (stop step : nat) :
  (1 <= step)%nat -> NoDup (range_step stop step).
Proof.
  intros Hstep. unfold range_step.
  apply NoDup_map_NoDup_ForallPairs; [| apply seq_NoDup].
  intros x y _ _ E. nia.
Qed.

(** No two cells of the loop have the same number. *)
Lemma cell_starts_ids_NoDup (rows cols cpx cpy : nat) :
  (1 <= cpx)%nat -> (1 <= cpy)%nat ->
  NoDup (map (fun rc => ((fst rc / cpy)%nat, (snd rc / cpx)%nat))
             (cell_starts rows cols cpx cpy)).
Proof.
  intros Hx Hy.
  apply NoDup_map_NoDup_ForallPairs.
  - intros [r c] [r' c'] H H' E. simpl in E. injection E as Er Ec.
    apply cell_starts_In in H; [| assumption | assumption].
    apply cell_starts_In in H'; [| assumption | assumption].
    destruct H as (_ & H1 & _ & H2). destruct H' as (_ & H1' & _ & H2').
    f_equal; congruence.
  - unfold cell_starts. apply NoDup_pairs; now apply range_step_NoDup.
Qed.

(** A loop over items with distinct keys appends values with distinct
    keys. *)
Lemma collect_NoDup {X Y K : Type} (body : X -> result (option Y))
    (key : Y -> K) (key' : X -> K) (l : list X) :
  (forall i v, body i = Ok (Some v) -> key v = key' i) ->
  NoDup (map key' l) ->
  forall out, collect body l = Ok out -> NoDup (map key out).
Proof.
  intros Hkey. induction l as [| i t IH]; intros Hnd out.
  - simpl. intros H. injection H as <-. constructor.
  - simpl. destruct (body i) as [r |] eqn:Eb; [| discriminate].
    simpl. destruct (collect body t) as [rest |] eqn:Ec; [| discriminate].
    simpl. intros H. injection H as <-.
    inversion Hnd as [| k ks Hk Hks]; subst.
    specialize (IH Hks rest eq_refl).
    destruct r as [v |]; [| exact IH].
    simpl. constructor; [| exact IH].
    intros Hin. apply in_map_iff in Hin. destruct Hin as (v' & Ev & Hv').
    destruct (@collect_In _ _ _ _ _ _ Ec Hv') as (i' & Hi' & Hb').
    apply Hk. rewrite <- (Hkey _ _ Eb), <- Ev, (Hkey _ _ Hb').
    now apply in_map.
Qed.

(** In every mode a cell gives at most one sounding: the [cell_id]s of
    the soundings that [select_from_grid] returns are pairwise
    distinct. *)
Theorem one_sounding_per_cell (cell_size : Q) (mode : selection_mode)
    (depth_grid : grid) (affine : Affine) (nodata_value : option float)
    (soundings : list SoundingPoint) :
  select_from_grid cell_size mode depth_grid affine nodata_value = Ok soundings ->
  NoDup (map cell_id soundings) /\
  forall s, In s soundings -> selection_type s = mode.
Proof.
  unfold select_from_grid. intros Hsel.
  destruct (cell_pixels cell_size (Qabs (a affine))) as [cpx |] eqn:Ex; [| discriminate].
  destruct (cell_pixels cell_size (Qabs (e affine))) as [cpy |] eqn:Ey; [| discriminate].
  simpl in Hsel.
  apply cell_pixels_pos in Ex. apply cell_pixels_pos in Ey.
  assert (Hbody : forall rc v,
             select_cell mode depth_grid affine nodata_value cpx cpy (fst rc) (snd rc)
             = Ok (Some v) ->
             cell_id v = ((fst rc / cpy)%nat, (snd rc / cpx)%nat) /\
             selection_type v = mode).
  { intros rc v. unfold select_cell. cbv zeta.
    match goal with
    | |- context [valid_depths nodata_value ?c] => destruct (valid_depths nodata_value c)
    end; [discriminate |].
    destruct (select_depth mode _) as [sel |]; [| discriminate]. simpl.
    match goal with
    | |- context [Np.nanargmin ?l] => destruct (Np.nanargmin l); [| discriminate]
    end.
    simpl. intros H. injection H as <-. split; reflexivity. }
  split.
  - refine (@collect_NoDup _ _ _ _ cell_id
              (fun rc => ((fst rc / cpy)%nat, (snd rc / cpx)%nat)) _ _ _ _ Hsel).
    + intros i v Hb. now apply Hbody in Hb.
    + now apply cell_starts_ids_NoDup.
  - intros s Hin.
    destruct (@collect_In _ _ _ _ _ _ Hsel Hin) as (rc & _ & Hb).
    now apply Hbody in Hb.
Qed.

End CellIds.

Lemma one_sounding_per_cell_witness :
  Sounding.select_from_grid 2 Sounding.Deep Sample.depths Sample.north_up None
    = Ok Sample.deep_soundings /\
  NoDup (map Sounding.cell_id Sample.deep_soundings) /\
  forall s, In s Sample.deep_soundings -> Sounding.selection_type s = Sounding.Deep.
Proof.
  assert (H : Sounding.select_from_grid 2 Sounding.Deep Sample.depths
                Sample.north_up None = Ok Sample.deep_soundings)
    by (vm_compute; reflexivity).
  split; [exact H |].
  exact (@one_sounding_per_cell 2 Sounding.Deep Sample.depths Sample.north_up None
           Sample.deep_soundings H).
Defined.

(* ------------------------------------------------------------------ *)
(** ** Where a sounding is placed *)

Section Position.

Import Grid Sounding Props.









End Position.


(* ------------------------------------------------------------------ *)
(** ** The cell size for a chart scale *)

Section ScaleFacts.

Import Scale.

(** Decide the comparison of the candidate scale [k] with the best
    scale so far. *)
Ltac split_scale k :=
  match goal with
  | |- context [(Z.abs (k - ?t) <? ?y)%Z] => destruct (Z.ltb_spec (Z.abs (k - t)) y)
  end.

(** The cell size applied for a target scale: the table entry of the
    nearest tabulated scale, the smaller scale winning a tie.  The
    lookup never fails. *)
Theorem applied_cell_size_by_scale (target_scale : Z) :
  applied_cell_size target_scale =
  Ok (if (target_scale <=? 17500)%Z then 50
      else if (target_scale <=? 37500)%Z then 100
      else if (target_scale <=? 75000)%Z then 200
      else if (target_scale <=? 150000)%Z then 400
      else 800)%Z.
Proof.
  unfold applied_cell_size, closest_scale. cbn [scale_to_cell map fst fold_left].
  split_scale 25000%Z; split_scale 50000%Z; split_scale 100000%Z;
    split_scale 200000%Z;
    repeat match goal with
           | |- context [(?x <=? ?y)%Z] => destruct (Z.leb_spec x y)
           end; try reflexivity; exfalso; lia.
Qed.

End ScaleFacts.

(* ------------------------------------------------------------------ *)
(** ** Vertex counts of Chaikin smoothing *)

Section ChaikinCounts.

Import Contour.

Lemma quarter_points_length (l : list point) :
  List.length (quarter_points l) = (2 * (List.length l - 1))%nat.
Proof.
  induction l as [| p0 [| p1 t] IH]; [reflexivity | reflexivity |].
  change (quarter_points (p0 :: p1 :: t))
    with (combine (3 # 4) (1 # 4) p0 p1 :: combine (1 # 4) (3 # 4) p0 p1
            :: quarter_points (p1 :: t)).
  cbn [List.length] in *. rewrite IH. lia.
Qed.

Lemma isclose_refl (a : Q) : isclose a a = true.
Proof.
  unfold isclose. apply Qle_bool_iff.
  assert (H : Qabs (a - a) == 0).
  { assert (E : a - a == 0) by ring. rewrite E. reflexivity. }
  rewrite H. pose proof (Qabs_nonneg a). nra.
Qed.

Lemma allclose_refl (p : point) : allclose p p = true.
Proof. unfold allclose. now rewrite !isclose_refl. Qed.

(** One pass over [n >= 1] vertices gives the two quarter points of each
    of the [n - 1] edges, and the last vertex when the path is open. *)
Lemma chaikin_pass_length (res : list point) (first : point) (t : list point) :
  res = first :: t ->
  exists out,
    chaikin_pass res = Ok out /\
    List.length out =
      (2 * (List.length res - 1)
       + (if allclose first (last res first) then 0 else 1))%nat.
Proof.
  intros ->. unfold chaikin_pass. eexists. split; [reflexivity |].
  rewrite length_app, quarter_points_length.
  destruct (allclose first (last (first :: t) first)); reflexivity.
Qed.

(** Smoothing a path of at least two vertices never raises and never
    returns fewer vertices than it was given. *)
Theorem chaikin_smooth_keeps_paths (iterations : nat) :
  forall coords : list point,
    (2 <= List.length coords)%nat ->
    exists out,
      _chaikin_smooth coords iterations = Ok out /\
      (List.length coords <= List.length out)%nat.
Proof.
  induction iterations as [| k IH]; intros coords Hlen.
  - exists coords. split; [reflexivity | lia].
  - destruct coords as [| first t]; [simpl in Hlen; lia |].
    destruct (@chaikin_pass_length (first :: t) first t eq_refl) as (res & Hp & Hl).
    assert (Hres : (List.length (first :: t) <= List.length res)%nat)
      by (rewrite Hl; lia).
    destruct (IH res) as (out & Ho & Hlo); [lia |].
    exists out. split; [| lia].
    cbn [_chaikin_smooth]. rewrite Hp. exact Ho.
Qed.

(** A path of fewer than two vertices does not survive two passes: the
    first pass leaves no vertex and the second reads [result[0]]. *)
Theorem chaikin_smooth_short_path_raises (coords : list point) (k : nat) :
  (List.length coords < 2)%nat ->
  _chaikin_smooth coords (S (S k)) = Raise IndexError.
Proof.
  intros Hlen. destruct coords as [| p [| q t]]; [reflexivity | | simpl in Hlen; lia].
  cbn [_chaikin_smooth chaikin_pass quarter_points last].
  rewrite allclose_refl. reflexivity.
Qed.

End ChaikinCounts.

Lemma chaikin_smooth_keeps_paths_witness :
  (2 <= List.length Sample.open_corner)%nat /\
  exists out,
    Contour._chaikin_smooth Sample.open_corner 2 = Ok out /\
    (List.length Sample.open_corner <= List.length out)%nat.
Proof.
  assert (H : (2 <= List.length Sample.open_corner)%nat) by (simpl; lia).
  split; [exact H |].
  exact (@chaikin_smooth_keeps_paths 2 Sample.open_corner H).
Defined.

Lemma chaikin_smooth_short_path_raises_witness :
  (List.length Sample.lone_vertex < 2)%nat /\
  Contour._chaikin_smooth Sample.lone_vertex 2 = Raise IndexError.
Proof.
  assert (H : (List.length Sample.lone_vertex < 2)%nat) by (simpl; lia).
  split; [exact H |].
  exact (@chaikin_smooth_short_path_raises Sample.lone_vertex 0 H).
Defined.
